(** * Store schedule and slot engine of the perdiem app

    A shallow embedding of [services/DateTimeService.ts],
    [services/APIService.ts], [services/LocationService.ts] and the time
    arithmetic of [services/NotificationService.ts], followed by the
    properties the specification states about them.

    Conventions of the embedding:
    - a JavaScript [Date] is its time value, an integer number of
      milliseconds since the epoch ([Z]); the range check of TimeClip
      is not modelled, and [Date] arguments are valid dates;
    - the module-level variable [STORE_CONFIG] and the static fields of
      the services are passed explicitly;
    - [new Date()] reads the clock: the instant is the argument [now];
    - the platform (device timezone rules, IANA zone rules) is an
      instance of the class [Runtime];
    - strings are [string]; comparison of strings is the comparison of
      their code units, which for the ASCII texts of this program is
      [String.compare]. *)

From Stdlib Require Import ZArith List String Ascii Bool Lia QArith.
From Stdlib Require Import DecimalString.
Import ListNotations.

Local Open Scope string_scope.
Local Open Scope Z_scope.

(** ** JavaScript strings and numbers *)

Module JS.

(** [n.toString()] for an integer [n]. *)
Definition toString (n : Z) : string :=
  NilZero.string_of_int (Z.to_int n).

Fixpoint zeros (n : nat) : string :=
  match n with
  | O => EmptyString
  | S k => String "0" (zeros k)
  end.

(** [s.padStart(width, '0')]. *)
Definition padStart0 (width : nat) (s : string) : string :=
  zeros (width - String.length s) ++ s.

(** [s.split(':')]: the pieces between the separators, never empty. *)
Fixpoint split (sep : ascii) (s : string) : list string :=
  match s with
  | EmptyString => [EmptyString]
  | String c rest =>
      if Ascii.eqb c sep then EmptyString :: split sep rest
      else match split sep rest with
           | [] => [String c EmptyString]
           | piece :: pieces => String c piece :: pieces
           end
  end.

Definition digitValue (c : ascii) : option Z :=
  let n := Z.of_N (N_of_ascii c) in
  if (48 <=? n) && (n <=? 57) then Some (n - 48) else None.

Fixpoint digitsValue (acc : Z) (s : string) : option Z :=
  match s with
  | EmptyString => Some acc
  | String c rest =>
      match digitValue c with
      | Some d => digitsValue (10 * acc + d) rest
      | None => None
      end
  end.

(** [Number(s)] on the texts this program converts: a run of decimal
    digits is its value and the empty text is 0.  [None] stands for
    [NaN]; signs, fractions, exponents and blanks, which the wire
    format "HH:MM" does not use, are mapped to it as well. *)
Definition Number (s : string) : option Z := digitsValue 0 s.

(** [Number(undefined)] is [NaN]: a missing array element converts to
    [None]. *)
Definition NumberAt (parts : list string) (i : nat) : option Z :=
  match nth_error parts i with
  | Some s => Number s
  | None => None
  end.

(** Truthiness of a value of type [string | undefined]. *)
Definition truthy (v : option string) : bool :=
  match v with
  | Some s => negb (String.eqb s "")
  | None => false
  end.

(** [a || b] on strings. *)
Definition orElse (a b : string) : string :=
  if String.eqb a "" then b else a.

(** [a > b] on strings. *)
Definition gtb (a b : string) : bool :=
  match String.compare a b with Gt => true | _ => false end.

(** [s.endsWith(suffix)]. *)
Fixpoint endsWith (s suffix : string) : bool :=
  if String.eqb s suffix then true
  else match s with
       | EmptyString => false
       | String _ rest => endsWith rest suffix
       end.

(** [pieces.pop()]: the last piece, [undefined] for no piece. *)
Fixpoint pop (pieces : list string) : option string :=
  match pieces with
  | [] => None
  | [piece] => Some piece
  | _ :: rest => pop rest
  end.

(** [s.replace(c, by)] with a one-character text as pattern: the first
    occurrence only is replaced. *)
Fixpoint replaceFirst (c : ascii) (by_ : string) (s : string) : string :=
  match s with
  | EmptyString => EmptyString
  | String x rest =>
      if Ascii.eqb x c then by_ ++ rest
      else String x (replaceFirst c by_ rest)
  end.

End JS.

(** ** The platform: time zones *)

(** [LocalTZA t isUTC] is the device's offset from UTC in milliseconds,
    as ECMAScript defines it: at the UTC instant [t] when [isUTC], and
    for the local time value [t] otherwise.  [ZoneTZA zone t] is the
    offset of an IANA zone at the UTC instant [t], the one [Intl]
    formats with.  [deviceTimeZone] is
    [Intl.DateTimeFormat().resolvedOptions().timeZone]. *)
Class Runtime := {
  LocalTZA : Z -> bool -> Z;
  ZoneTZA : string -> Z -> Z;
  deviceTimeZone : string
}.

(** ** Dates *)

Module JSDate.

Definition msPerSecond : Z := 1000.
Definition msPerMinute : Z := 60000.
Definition msPerHour : Z := 3600000.
Definition msPerDay : Z := 86400000.

Definition Day (t : Z) : Z := t / msPerDay.
Definition TimeWithinDay (t : Z) : Z := t mod msPerDay.
Definition HourFromTime (t : Z) : Z := (t / msPerHour) mod 24.
Definition MinFromTime (t : Z) : Z := (t / msPerMinute) mod 60.
Definition SecFromTime (t : Z) : Z := (t / msPerSecond) mod 60.
Definition msFromTime (t : Z) : Z := t mod msPerSecond.
Definition WeekDay (t : Z) : Z := (Day t + 4) mod 7.

(** Civil date (year, month 1-12, day 1-31) of a day number. *)
Definition civilFromDays (days : Z) : Z * Z * Z :=
  let z := days + 719468 in
  let era := z / 146097 in
  let doe := z - era * 146097 in
  let yoe := (doe - doe / 1460 + doe / 36524 - doe / 146096) / 365 in
  let doy := doe - (365 * yoe + yoe / 4 - yoe / 100) in
  let mp := (5 * doy + 2) / 153 in
  let d := doy - (153 * mp + 2) / 5 + 1 in
  let m := if mp <? 10 then mp + 3 else mp - 9 in
  let y := yoe + era * 400 in
  (if m <=? 2 then y + 1 else y, m, d).

(** Day number of a civil date. *)
Definition daysFromCivil (y m d : Z) : Z :=
  let y' := if m <=? 2 then y - 1 else y in
  let era := y' / 400 in
  let yoe := y' - era * 400 in
  let doy := (153 * (if 2 <? m then m - 3 else m + 9) + 2) / 5 + d - 1 in
  let doe := yoe * 365 + yoe / 4 - yoe / 100 + doy in
  era * 146097 + doe - 719468.

Definition YearFromTime (t : Z) : Z := fst (fst (civilFromDays (Day t))).
(** Months count from 0, as in ECMAScript. *)
Definition MonthFromTime (t : Z) : Z := snd (fst (civilFromDays (Day t))) - 1.
Definition DateFromTime (t : Z) : Z := snd (civilFromDays (Day t)).

Definition MakeTime (hour min sec ms : Z) : Z :=
  hour * msPerHour + min * msPerMinute + sec * msPerSecond + ms.

(** [month] counts from 0 and may lie outside 0..11; [date] may lie
    outside the month. *)
Definition MakeDay (year month date : Z) : Z :=
  let ym := year + month / 12 in
  let mn := month mod 12 in
  daysFromCivil ym (mn + 1) 1 + date - 1.

Definition MakeDate (day time : Z) : Z := day * msPerDay + time.

Section Local.
Context {rt : Runtime}.

Definition LocalTime (t : Z) : Z := t + LocalTZA t true.
Definition UTC (t : Z) : Z := t - LocalTZA t false.

Definition getDay (d : Z) : Z := WeekDay (LocalTime d).
Definition getDate (d : Z) : Z := DateFromTime (LocalTime d).
Definition getHours (d : Z) : Z := HourFromTime (LocalTime d).
Definition getMinutes (d : Z) : Z := MinFromTime (LocalTime d).

(** [d.setHours(hour, min, sec, ms)]; the new time value. *)
Definition setHours (d hour min sec ms : Z) : Z :=
  let t := LocalTime d in
  UTC (MakeDate (Day t) (MakeTime hour min sec ms)).

(** [d.setMinutes(min)]. *)
Definition setMinutes (d min : Z) : Z :=
  let t := LocalTime d in
  UTC (MakeDate (Day t)
         (MakeTime (HourFromTime t) min (SecFromTime t) (msFromTime t))).

(** [d.setDate(date)]. *)
Definition setDate (d date : Z) : Z :=
  let t := LocalTime d in
  UTC (MakeDate (MakeDay (YearFromTime t) (MonthFromTime t) date)
         (TimeWithinDay t)).

Definition pad2 (n : Z) : string := JS.padStart0 2 (JS.toString n).

(** [d.toTimeString().slice(0, 5)]: the local "HH:MM". *)
Definition toTimeStringHM (d : Z) : string :=
  let t := LocalTime d in
  pad2 (HourFromTime t) ++ ":" ++ pad2 (MinFromTime t).

(** Wall-clock time value of the instant [d] in an IANA zone. *)
Definition zoneTime (zone : string) (d : Z) : Z := d + ZoneTZA zone d.

(** [d.toLocaleDateString('en-CA', { timeZone })]: "YYYY-MM-DD". *)
Definition toLocaleDateString_enCA (d : Z) (timeZone : string) : string :=
  let t := zoneTime timeZone d in
  JS.padStart0 4 (JS.toString (YearFromTime t)) ++ "-" ++
  pad2 (MonthFromTime t + 1) ++ "-" ++ pad2 (DateFromTime t).

(** [d.toLocaleTimeString('en-US', { hour: 'numeric', minute: '2-digit',
    hour12: true, timeZone })]: "h:mm AM" or "h:mm PM". *)
Definition toLocaleTimeString_enUS (d : Z) (timeZone : string) : string :=
  let t := zoneTime timeZone d in
  let h := HourFromTime t in
  let h12 := if h mod 12 =? 0 then 12 else h mod 12 in
  JS.toString h12 ++ ":" ++ pad2 (MinFromTime t) ++
  (if h <? 12 then " AM" else " PM").

(** [new Date(d.toLocaleString('en-US', { timeZone }))]: the text shows
    the wall clock of the zone to the second, and is read back as a
    local time of the device. *)
Definition reparseInZone (d : Z) (timeZone : string) : Z :=
  let t := zoneTime timeZone d in
  UTC (t - msFromTime t).

End Local.

End JSDate.

(** ** Completions: a value, or a thrown exception *)

(** What a [throw] carries: an [Error] object with its [name] and
    [message], or some other value. *)
Inductive exn : Type :=
| ErrorObject (name message : string)
| OtherValue.

Inductive completion (A : Type) : Type :=
| Normal (a : A)
| Throw (e : exn).
Arguments Normal {A} a.
Arguments Throw {A} e.

Definition bind {A B : Type} (c : completion A) (k : A -> completion B)
  : completion B :=
  match c with
  | Normal a => k a
  | Throw e => Throw e
  end.

(** [try { body } catch (error) { handler }]. *)
Definition tryCatch {A : Type} (body : completion A)
  (handler : exn -> completion A) : completion A :=
  match body with
  | Normal a => Normal a
  | Throw e => handler e
  end.

Notation "x <- c ;; k" := (bind c (fun x => k))
  (at level 61, c at next level, right associativity).

(** ** The data model of DateTimeService.ts *)

Module Model.

Module TimeSlot.
Record t : Type := mk {
  id : string;
  time : string;
  displayTime : string;
  isAvailable : bool;
  isSelected : bool
}.
End TimeSlot.

Module StoreHours.
Record t : Type := mk {
  dayOfWeek : Z;        (* 0-6 (Sunday-Saturday) *)
  openTime : string;    (* "09:00" *)
  closeTime : string    (* "17:00" *)
}.
End StoreHours.

Module StoreOverride.
Record t : Type := mk {
  date : string;        (* "2025-04-16" *)
  isOpen : bool;
  openTime : option string;
  closeTime : option string;
  reason : option string
}.
End StoreOverride.

Module StoreConfig.
Record t : Type := mk {
  timezone : string;
  hours : list StoreHours.t;
  overrides : list StoreOverride.t
}.
End StoreConfig.

End Model.

(** ** APIService.ts *)

Module APIService.

Module StoreTime.
Record t : Type := mk {
  id : string;
  day_of_week : Z;      (* 0-6 (Sunday-Saturday) *)
  is_open : bool;
  start_time : string;  (* "09:00" *)
  end_time : string     (* "17:00" *)
}.
End StoreTime.

Module StoreOverride.
Record t : Type := mk {
  id : string;
  day : Z;              (* 1-31 *)
  month : Z;            (* 1-12 *)
  is_open : bool;
  start_time : option string;
  end_time : option string
}.
End StoreOverride.

(** [APIResponse<T[]>]. *)
Record APIResponse (T : Type) : Type := mkResponse {
  data : list T;
  error : option string
}.
Arguments mkResponse {T} data error.
Arguments data {T} _.
Arguments error {T} _.

(** [makeRequest], given how the body of its [try] ended: with the
    parsed JSON, or with what [fetch], the status check or
    [response.json()] threw. *)
Definition makeRequest {T : Type} (outcome : completion (list T))
  : APIResponse T :=
  match outcome with
  | Normal d => mkResponse d None
  | Throw (ErrorObject name message) =>
      if String.eqb name "AbortError"
      then mkResponse [] (Some "Request timeout")
      else mkResponse [] (Some message)
  | Throw OtherValue => mkResponse [] (Some "Unknown error occurred")
  end.

(** The object a StoreTime is converted to also carries [isOpen]; the
    type [StoreHours] it is stored at does not, and nothing reads it. *)
Definition convertStoreTime (apiStoreTime : StoreTime.t)
  : Model.StoreHours.t :=
  Model.StoreHours.mk (StoreTime.day_of_week apiStoreTime)
                (StoreTime.start_time apiStoreTime)
                (StoreTime.end_time apiStoreTime).

Definition convertStoreOverride (apiOverride : StoreOverride.t)
  : Model.StoreOverride.t :=
  let month := JS.padStart0 2 (JS.toString (StoreOverride.month apiOverride)) in
  let day := JS.padStart0 2 (JS.toString (StoreOverride.day apiOverride)) in
  let dateString := "2025-" ++ month ++ "-" ++ day in
  Model.StoreOverride.mk dateString
    (StoreOverride.is_open apiOverride)
    (StoreOverride.start_time apiOverride)
    (StoreOverride.end_time apiOverride)
    (Some ("Override for " ++ month ++ "/" ++ day)).

Record StoreConfigResult : Type := mkResult {
  storeTimes : list StoreTime.t;
  storeOverrides : list StoreOverride.t;
  resultError : option string
}.

(** [x || 'OK'] on an optional error text. *)
Definition orOK (e : option string) : string :=
  match e with
  | Some s => JS.orElse s "OK"
  | None => "OK"
  end.

(** [getStoreTimes] and [getStoreOverrides], given how the request
    went. *)
Definition getStoreTimes (network : completion (list StoreTime.t))
  : completion (APIResponse StoreTime.t) :=
  Normal (makeRequest network).

Definition getStoreOverrides (network : completion (list StoreOverride.t))
  : completion (APIResponse StoreOverride.t) :=
  Normal (makeRequest network).

(** The [error] of the [catch] branch:
    [error instanceof Error ? error.message : 'Unknown error']. *)
Definition caughtMessage (e : exn) : string :=
  match e with
  | ErrorObject _ message => message
  | OtherValue => "Unknown error"
  end.

(** [getStoreConfig], given how the two requests of its [Promise.all]
    went. *)
Definition getStoreConfig (timesNetwork : completion (list StoreTime.t))
  (overridesNetwork : completion (list StoreOverride.t))
  : completion StoreConfigResult :=
  tryCatch
    (timesResponse <- getStoreTimes timesNetwork ;;
     overridesResponse <- getStoreOverrides overridesNetwork ;;
     let hasError := JS.truthy (error timesResponse)
                     || JS.truthy (error overridesResponse) in
     let error :=
       if hasError
       then Some ("Times: " ++ orOK (error timesResponse) ++
                  ", Overrides: " ++ orOK (error overridesResponse))
       else None in
     Normal (mkResult (data timesResponse) (data overridesResponse) error))
    (fun e => Normal (mkResult [] [] (Some (caughtMessage e)))).

(** [checkAPIHealth], given how its request went.  [makeRequest] does
    not throw, so the [catch] of the source is not entered. *)
Definition checkAPIHealth (network : completion (list StoreTime.t)) : bool :=
  let response := makeRequest network in
  negb (JS.truthy (error response)).

End APIService.

(** ** LocationService.ts *)

Module LocationService.

Record Coordinates : Type := mkCoordinates {
  latitude : Q;
  longitude : Q
}.

Record LocationData : Type := mkLocation {
  city : string;
  region : string;
  country : string;
  timezone : string;
  coordinates : Coordinates
}.

Definition formatLocationForDisplay (location : LocationData) : string :=
  if negb (String.eqb (city location) "")
     && negb (String.eqb (region location) "")
  then city location ++ ", " ++ region location
  else if negb (String.eqb (city location) "") then city location
  else if negb (String.eqb (region location) "") then region location
  else "Current Location".

(** NYC area bounds (approximate). *)
Definition NYC_north : Q := 409176 # 10000.
Definition NYC_south : Q := 404774 # 10000.
Definition NYC_east : Q := - (737004 # 10000).
Definition NYC_west : Q := - (742591 # 10000).

Definition isInNYCArea (location : LocationData) : bool :=
  let latitude := latitude (coordinates location) in
  let longitude := longitude (coordinates location) in
  Qle_bool NYC_south latitude && Qle_bool latitude NYC_north
  && Qle_bool NYC_west longitude && Qle_bool longitude NYC_east.

Definition getAlternativeTimezone (location : option LocationData) : string :=
  match location with
  | None => "America/New_York"
  | Some l => if isInNYCArea l then "America/Los_Angeles"
              else "America/New_York"
  end.

Definition getAlternativeCityName (location : option LocationData) : string :=
  match location with
  | None => "NYC"
  | Some l => if isInNYCArea l then "LA" else "NYC"
  end.

End LocationService.

Import Model.

(** A [Date] object a function hands back: its time value, or
    [Invalid Date] (time value [NaN]). *)
Inductive DateValue : Type :=
| ValidDate (t : Z)
| InvalidDate.

(** ** NotificationService.ts: the time arithmetic *)

Module NotificationService.

Module StoreOpeningTime.
Record t : Type := mk {
  dayOfWeek : Z;
  openTime : string;
  closeTime : string
}.
End StoreOpeningTime.

Section WithRuntime.
Context {rt : Runtime}.

Definition ofHours (day : Z) (h : StoreHours.t) : StoreOpeningTime.t :=
  StoreOpeningTime.mk day (StoreHours.openTime h) (StoreHours.closeTime h).

(** The loop [for (let i = 1; i <= 7; i++)] of getNextStoreOpeningTime,
    entered at [i] with [remaining] rounds to go. *)
Fixpoint checkNextDays (storeConfig : StoreConfig.t) (now i : Z)
  (remaining : nat) : option StoreOpeningTime.t :=
  match remaining with
  | O => None
  | S remaining' =>
      let futureDate := JSDate.setDate now (JSDate.getDate now + i) in
      let futureDayOfWeek := JSDate.getDay futureDate in
      let futureApiDayOfWeek :=
        if futureDayOfWeek =? 0 then 7 else futureDayOfWeek in
      match find (fun h => StoreHours.dayOfWeek h =? futureApiDayOfWeek)
                 (StoreConfig.hours storeConfig) with
      | Some futureHours => Some (ofHours futureApiDayOfWeek futureHours)
      | None => checkNextDays storeConfig now (i + 1) remaining'
      end
  end.

(** [storeConfig] is what [DateTimeService.getStoreConfig()] returns. *)
Definition getNextStoreOpeningTime (storeConfig : StoreConfig.t) (now : Z)
  : option StoreOpeningTime.t :=
  let currentDayOfWeek := JSDate.getDay now in
  let currentTime := JSDate.toTimeStringHM now in
  (* Convert JavaScript day (0-6) to API day (1-7) *)
  let apiDayOfWeek := if currentDayOfWeek =? 0 then 7 else currentDayOfWeek in
  (* Check today's opening time *)
  let todayHours := find (fun h => StoreHours.dayOfWeek h =? apiDayOfWeek)
                         (StoreConfig.hours storeConfig) in
  match todayHours with
  | Some h =>
      if JS.gtb (StoreHours.openTime h) currentTime
      then Some (ofHours apiDayOfWeek h)
      else checkNextDays storeConfig now 1 7
  | None => checkNextDays storeConfig now 1 7
  end.

(** The [catch] of the source is not entered: [openTime] is a string,
    so nothing in the body throws, and the result is never [null].
    When a part of [openTime] is not a number, [setHours] leaves an
    invalid date, [notificationDate <= now] is false, and that date is
    returned. *)
Definition calculateNotificationTime (now : Z)
  (openingTime : StoreOpeningTime.t) : option DateValue :=
  let parts := JS.split ":" (StoreOpeningTime.openTime openingTime) in
  match JS.NumberAt parts 0, JS.NumberAt parts 1 with
  | Some openHour, Some openMinute =>
      (* Set the notification time (1 hour before opening) *)
      let notificationDate :=
        JSDate.setHours now (openHour - 1) openMinute 0 0 in
      (* If the notification time has passed today, find the next
         occurrence *)
      if notificationDate <=? now then
        let daysUntilNext :=
          Z.rem (StoreOpeningTime.dayOfWeek openingTime
                 - JSDate.getDay now + 7) 7 in
        if daysUntilNext =? 0
        then (* Same day, but next week *)
          Some (ValidDate
                  (JSDate.setDate notificationDate (JSDate.getDate now + 7)))
        else
          Some (ValidDate
                  (JSDate.setDate notificationDate
                     (JSDate.getDate now + daysUntilNext)))
      else Some (ValidDate notificationDate)
  | _, _ => Some InvalidDate
  end.

(** A request held by the notification centre of the system; of its
    content only the identifier and the trigger date are kept. *)
Record NotificationRequest : Type := mkRequest {
  identifier : string;
  triggerDate : DateValue
}.

Definition NOTIFICATION_ID : string := "store-opening-reminder".

(** Which calls to the notification centre throw. *)
Record Faults : Type := mkFaults {
  getAllFails : bool;
  cancelFails : bool;
  scheduleFails : bool
}.

(** [date <= t] for a [Date] and a time value: false for an invalid
    date. *)
Definition dateLeb (date : DateValue) (t : Z) : bool :=
  match date with
  | ValidDate v => v <=? t
  | InvalidDate => false
  end.

Definition isOurs (request : NotificationRequest) : bool :=
  String.eqb (identifier request) NOTIFICATION_ID.

Definition getScheduledNotifications (faults : Faults)
  (centre : list NotificationRequest) : list NotificationRequest :=
  if getAllFails faults then [] else centre.

Definition isStoreOpeningReminderScheduled (faults : Faults)
  (centre : list NotificationRequest) : bool :=
  existsb isOurs (getScheduledNotifications faults centre).

(** The centre after [cancelStoreOpeningReminder]. *)
Definition cancelStoreOpeningReminder (faults : Faults)
  (centre : list NotificationRequest) : list NotificationRequest :=
  if cancelFails faults then centre
  else filter (fun request => negb (isOurs request)) centre.

(** [scheduleStoreOpeningReminder]: what it returns ([None] for the
    [undefined] of the bare [return]) and the centre it leaves.  The
    clock is read three times: by getNextStoreOpeningTime, by
    calculateNotificationTime and by the function itself. *)
Definition scheduleStoreOpeningReminder (faults : Faults)
  (storeConfig : StoreConfig.t) (nowFinder nowReminder now : Z)
  (centre : list NotificationRequest)
  : option bool * list NotificationRequest :=
  (* Check if notification is already scheduled *)
  if isStoreOpeningReminderScheduled faults centre then (None, centre)
  else
    (* Cancel any existing notifications *)
    let centre := cancelStoreOpeningReminder faults centre in
    match getNextStoreOpeningTime storeConfig nowFinder with
    | None => (Some false, centre)
    | Some nextOpeningTime =>
        match calculateNotificationTime nowReminder nextOpeningTime with
        | None => (Some false, centre)
        | Some notificationTime =>
            if dateLeb notificationTime now then (Some false, centre)
            else
              (* Ensure notification is at least 1 minute in the future *)
              let minTime := now + 60000 in
              if dateLeb notificationTime minTime then (Some false, centre)
              else if scheduleFails faults then (Some false, centre)
              else (Some true,
                    (centre ++ [mkRequest NOTIFICATION_ID notificationTime])
                    %list)
        end
    end.

(** [refreshStoreOpeningReminder]: the centre it leaves. *)
Definition refreshStoreOpeningReminder (faults : Faults)
  (storeConfig : StoreConfig.t) (nowFinder nowReminder now : Z)
  (centre : list NotificationRequest) : list NotificationRequest :=
  snd (scheduleStoreOpeningReminder faults storeConfig nowFinder nowReminder
         now centre).

End WithRuntime.

End NotificationService.

(** ** DateTimeService.ts *)

Module DateTimeService.

Record StoreStatus : Type := mkStatus {
  isOpen : bool;
  nextOpen : option string
}.

(** The module variable [STORE_CONFIG] and the static fields of the
    class. *)
Record State : Type := mkState {
  STORE_CONFIG : StoreConfig.t;
  selectedDate : option Z;
  selectedTimeSlot : option TimeSlot.t;
  useAlternativeTimezone : bool;
  userLocation : option LocationService.LocationData;
  _isInitialized : bool
}.

Definition initialState : State :=
  mkState (StoreConfig.mk "America/New_York" [] []) None None false None false.

Definition initializedWith (st : State) (config : StoreConfig.t) : State :=
  mkState config (selectedDate st) (selectedTimeSlot st)
          (useAlternativeTimezone st) (userLocation st) true.

(** The fallback configuration; the source writes it out twice, in the
    error branch and in the [catch] of initializeStoreConfig. *)
Definition fallbackConfiguration : StoreConfig.t :=
  StoreConfig.mk "America/New_York"
    [ StoreHours.mk 0 "10:00" "18:00";   (* Sunday *)
      StoreHours.mk 1 "09:00" "17:00";   (* Monday *)
      StoreHours.mk 2 "09:00" "17:00";   (* Tuesday *)
      StoreHours.mk 3 "09:00" "17:00";   (* Wednesday *)
      StoreHours.mk 4 "09:00" "17:00";   (* Thursday *)
      StoreHours.mk 5 "09:00" "17:00";   (* Friday *)
      StoreHours.mk 6 "10:00" "16:00" ]  (* Saturday *)
    [].

(** [initializeStoreConfig], given how the two requests of
    [APIService.getStoreConfig()] went.  The call
    [NotificationService.scheduleStoreOpeningReminder()] that ends
    both branches catches its own errors and changes nothing of
    [State]; it is left out. *)
Definition initializeStoreConfig (st : State)
  (timesNetwork : completion (list APIService.StoreTime.t))
  (overridesNetwork : completion (list APIService.StoreOverride.t))
  : completion State :=
  tryCatch
    (fetched <- APIService.getStoreConfig timesNetwork overridesNetwork ;;
     let storeTimes := APIService.storeTimes fetched in
     let storeOverrides := APIService.storeOverrides fetched in
     let error := APIService.resultError fetched in
     if JS.truthy error
     then (* Use fallback configuration if API fails *)
       Normal (initializedWith st fallbackConfiguration)
     else
       (* Convert API data to internal format *)
       let hours :=
         map APIService.convertStoreTime
             (filter APIService.StoreTime.is_open storeTimes) in
       let overrides := map APIService.convertStoreOverride storeOverrides in
       Normal (initializedWith st
                 (StoreConfig.mk "America/New_York" hours overrides)))
    (fun _ => Normal (initializedWith st fallbackConfiguration)).

Definition setUserLocation (st : State)
  (location : option LocationService.LocationData) : State :=
  mkState (STORE_CONFIG st) (selectedDate st) (selectedTimeSlot st)
          (useAlternativeTimezone st) location (_isInitialized st).

Definition toggleTimezone (st : State) : State :=
  mkState (STORE_CONFIG st) (selectedDate st) (selectedTimeSlot st)
          (negb (useAlternativeTimezone st)) (userLocation st)
          (_isInitialized st).

Definition getStoreConfig (st : State) : StoreConfig.t := STORE_CONFIG st.

Section WithRuntime.
Context {rt : Runtime}.

Definition getCurrentTimezone : string := deviceTimeZone.

Definition getUserTimezone (st : State) : string :=
  match userLocation st with
  | Some location =>
      JS.orElse (LocationService.timezone location) getCurrentTimezone
  | None => getCurrentTimezone
  end.

Definition getAlternativeTimezone (st : State) : string :=
  LocationService.getAlternativeTimezone (userLocation st).

Definition getActiveTimezone (st : State) : string :=
  if useAlternativeTimezone st then getAlternativeTimezone st
  else getUserTimezone st.

Definition getActiveCityName (st : State) : string :=
  if useAlternativeTimezone st
  then LocationService.getAlternativeCityName (userLocation st)
  else match userLocation st with
       | Some location =>
           JS.orElse (LocationService.city location)
                     (LocationService.formatLocationForDisplay location)
       | None => "Your Area"
       end.

Definition getCurrentTimeInTimezone (now : Z) (timezone : string) : Z :=
  JSDate.reparseInZone now timezone.

(** Format date for API (YYYY-MM-DD). *)
Definition formatDateForAPI (date : Z) (timezone : string) : string :=
  JSDate.toLocaleDateString_enCA date timezone.

(** Check if store is open on a specific date. *)
Definition isStoreOpen (STORE_CONFIG : StoreConfig.t) (date : Z)
  (timezone : string) : bool :=
  let dateString := formatDateForAPI date timezone in
  (* Check for overrides first *)
  match find (fun o => String.eqb (StoreOverride.date o) dateString)
             (StoreConfig.overrides STORE_CONFIG) with
  | Some override => StoreOverride.isOpen override
  | None =>
      (* Check regular hours *)
      let dayOfWeek := JSDate.getDay date in
      match find (fun h => StoreHours.dayOfWeek h =? dayOfWeek)
                 (StoreConfig.hours STORE_CONFIG) with
      | Some _ => true
      | None => false
      end
  end.

(** The slot that one round of the loop of generateTimeSlots pushes. *)
Definition slotAt (dateString timezone : string) (currentTime : Z)
  : TimeSlot.t :=
  let timeString := JSDate.toTimeStringHM currentTime in
  let displayTime := JSDate.toLocaleTimeString_enUS currentTime timezone in
  TimeSlot.mk (dateString ++ "-" ++ timeString) timeString displayTime
              true false.

(** The loop [while (currentTime < closeTime)] of generateTimeSlots.
    [None]: the loop is still running when [fuel] rounds are over. *)
Fixpoint slotLoop (fuel : nat) (dateString timezone : string)
  (currentTime closeTime : Z) : option (list TimeSlot.t) :=
  match fuel with
  | O => None
  | S fuel' =>
      if currentTime <? closeTime then
        let slot := slotAt dateString timezone currentTime in
        match slotLoop fuel' dateString timezone
                (JSDate.setMinutes currentTime
                   (JSDate.getMinutes currentTime + 15))
                closeTime with
        | Some slots => Some (slot :: slots)
        | None => None
        end
      else Some []
  end.

(** Generate time slots for a specific date.  When a part of the
    opening or closing time is not a number, the date built from it is
    invalid, the loop test is false at once, and no slot comes out. *)
Definition generateTimeSlots (fuel : nat) (STORE_CONFIG : StoreConfig.t)
  (date : Z) (timezone : string) : option (list TimeSlot.t) :=
  let dayOfWeek := JSDate.getDay date in
  let dateString := formatDateForAPI date timezone in
  (* Check if store is open on this date *)
  let isOpen := isStoreOpen STORE_CONFIG date timezone in
  if negb isOpen then Some []
  else
    (* Get store hours for this day *)
    match find (fun h => StoreHours.dayOfWeek h =? dayOfWeek)
               (StoreConfig.hours STORE_CONFIG) with
    | None => Some []
    | Some storeHours =>
        (* Parse open and close times *)
        let openParts := JS.split ":" (StoreHours.openTime storeHours) in
        let closeParts := JS.split ":" (StoreHours.closeTime storeHours) in
        match JS.NumberAt openParts 0, JS.NumberAt openParts 1,
              JS.NumberAt closeParts 0, JS.NumberAt closeParts 1 with
        | Some openHour, Some openMinute, Some closeHour, Some closeMinute =>
            let openTime := JSDate.setHours date openHour openMinute 0 0 in
            let closeTime := JSDate.setHours date closeHour closeMinute 0 0 in
            (* Generate 15-minute intervals *)
            slotLoop fuel dateString timezone openTime closeTime
        | _, _, _, _ => Some []
        end
    end.

(** Get store status (open/closed). *)
Definition getStoreStatus (STORE_CONFIG : StoreConfig.t) (now : Z)
  (timezone : string) : StoreStatus :=
  let now' := getCurrentTimeInTimezone now timezone in
  let isOpen := isStoreOpen STORE_CONFIG now' timezone in
  mkStatus isOpen None.

(** Get greeting message based on current timezone. *)
Definition getGreetingMessage (st : State) (now : Z) : string :=
  let activeTimezone := getActiveTimezone st in
  let currentTime := getCurrentTimeInTimezone now activeTimezone in
  let hour := JSDate.getHours currentTime in
  let greeting :=
    if (5 <=? hour) && (hour <? 10) then "Good Morning"
    else if (10 <=? hour) && (hour <? 12) then "Late Morning Vibes!"
    else if (12 <=? hour) && (hour <? 17) then "Good Afternoon"
    else if (17 <=? hour) && (hour <? 21) then "Good Evening"
    else "Night Owl in" in
  let cityName := getActiveCityName st in
  greeting ++ " " ++ cityName ++ "!".

(** Generate next 30 days. *)
Definition generateNext30Days (today : Z) : list Z :=
  map (fun i => JSDate.setDate today (JSDate.getDate today + Z.of_nat i))
      (seq 0 30).

End WithRuntime.

(** Get timezone display name. *)
Definition getTimezoneDisplayName (timezone : string) : string :=
  match JS.pop (JS.split "/" timezone) with
  | Some piece => JS.orElse (JS.replaceFirst "_" " " piece) timezone
  | None => timezone
  end.

Definition isUsingAlternativeTimezone (st : State) : bool :=
  useAlternativeTimezone st.

(** [setSelectedDate] and [setSelectedTimeSlot]; the copy written to
    the storage of the device is left out. *)
Definition setSelectedDate (st : State) (date : Z) : State :=
  mkState (STORE_CONFIG st) (Some date) (selectedTimeSlot st)
          (useAlternativeTimezone st) (userLocation st) (_isInitialized st).

Definition setSelectedTimeSlot (st : State) (slot : TimeSlot.t) : State :=
  mkState (STORE_CONFIG st) (selectedDate st) (Some slot)
          (useAlternativeTimezone st) (userLocation st) (_isInitialized st).

End DateTimeService.

(** ** components/DatePicker.tsx: the handlers *)

Module DatePicker.

(** [handleTimeSlotSelect]: the new [timeSlots]. *)
Definition handleTimeSlotSelect (timeSlots : list TimeSlot.t)
  (slot : TimeSlot.t) : list TimeSlot.t :=
  map (fun s => TimeSlot.mk (TimeSlot.id s) (TimeSlot.time s)
                  (TimeSlot.displayTime s) (TimeSlot.isAvailable s)
                  (String.eqb (TimeSlot.id s) (TimeSlot.id slot)))
      timeSlots.

(** [handleConfirm]: the state of DateTimeService after the two
    setters, or [None] when the handler does nothing. *)
Definition handleConfirm (st : DateTimeService.State)
  (selectedDate : option Z) (timeSlots : list TimeSlot.t)
  : option DateTimeService.State :=
  match selectedDate with
  | Some date =>
      if existsb TimeSlot.isSelected timeSlots then
        match find TimeSlot.isSelected timeSlots with
        | Some selectedSlot =>
            Some (DateTimeService.setSelectedTimeSlot
                    (DateTimeService.setSelectedDate st date) selectedSlot)
        | None => None
        end
      else None
  | None => None
  end.

End DatePicker.

(** ** utils/mockAuthAPI.ts *)

Module MockAuthAPI.

Record User : Type := mkUser {
  uid : string;
  email : string;
  password : string;
  displayName : string
}.

(** What login and signup return; [photoURL] is [null] throughout. *)
Record Profile : Type := mkProfile {
  profileUid : string;
  profileEmail : string;
  profileDisplayName : string
}.

Definition mockUsers : list User :=
  [ mkUser "user-1" "test@example.com" "password123" "Test User";
    mkUser "user-2" "demo@example.com" "demo123" "Demo User" ].

Definition profileOf (user : User) : Profile :=
  mkProfile (uid user) (email user) (displayName user).

(** [login] over the user table [users]. *)
Definition login (users : list User) (email' password' : string)
  : completion Profile :=
  match find (fun u => String.eqb (email u) email'
                       && String.eqb (password u) password') users with
  | None => Throw (ErrorObject "Error" "Invalid credentials")
  | Some user => Normal (profileOf user)
  end.

(** [signup] over the user table: the result and the table it leaves.
    [dateNow] is [Date.now()]. *)
Definition signup (users : list User) (dateNow : Z)
  (email' password' displayName' : string)
  : completion Profile * list User :=
  match find (fun u => String.eqb (email u) email') users with
  | Some _ => (Throw (ErrorObject "Error" "User already exists"), users)
  | None =>
      let newUser := mkUser ("user-" ++ JS.toString dateNow) email' password'
                            displayName' in
      (Normal (profileOf newUser), (users ++ [newUser])%list)
  end.

End MockAuthAPI.

(** ** What the specification says, for the statements that compare
    the code with it *)

Module Spec.

(** Follows the specification (4.1, resolveDay): the override of the
    date is looked up first and is authoritative; an override marked
    open without its pair of times is an error; without an override,
    a weekly entry for the weekday means open with its window, and
    none means closed. *)
Inductive ResolvedDay : Type :=
| Closed
| Open (openTime closeTime : string)
| InvalidOverride.

Definition resolveDay (config : StoreConfig.t) (date : string)
  (dayOfWeek : Z) : ResolvedDay :=
  match find (fun o => String.eqb (StoreOverride.date o) date)
             (StoreConfig.overrides config) with
  | Some o =>
      if StoreOverride.isOpen o
      then match StoreOverride.openTime o, StoreOverride.closeTime o with
           | Some openTime, Some closeTime => Open openTime closeTime
           | _, _ => InvalidOverride
           end
      else Closed
  | None =>
      match find (fun h => StoreHours.dayOfWeek h =? dayOfWeek)
                 (StoreConfig.hours config) with
      | Some h => Open (StoreHours.openTime h) (StoreHours.closeTime h)
      | None => Closed
      end
  end.

(** Follows the specification (4.4, greeting): the text for an hour of
    the day and a city label. *)
Definition greeting (hour : Z) (city : string) : string :=
  if (5 <=? hour) && (hour <? 10) then "Good Morning, " ++ city ++ "!"
  else if (10 <=? hour) && (hour <? 12) then "Late Morning Vibes! " ++ city
  else if (12 <=? hour) && (hour <? 17) then "Good Afternoon, " ++ city ++ "!"
  else if (17 <=? hour) && (hour <? 21) then "Good Evening, " ++ city ++ "!"
  else "Night Owl in " ++ city ++ "!".

(** A wall-clock "HH:MM" lies in the half-open window. *)
Definition within (openTime closeTime wallClock : string) : bool :=
  String.leb openTime wallClock && String.ltb wallClock closeTime.

Section WithRuntime.
Context {rt : Runtime}.

(** Calendar date, weekday and wall-clock "HH:MM" of an instant in a
    zone. *)
Definition dateIn (zone : string) (instant : Z) : string :=
  JSDate.toLocaleDateString_enCA instant zone.

Definition weekdayIn (zone : string) (instant : Z) : Z :=
  JSDate.WeekDay (JSDate.zoneTime zone instant).

Definition wallClockIn (zone : string) (instant : Z) : string :=
  let t := JSDate.zoneTime zone instant in
  JSDate.pad2 (JSDate.HourFromTime t) ++ ":" ++
  JSDate.pad2 (JSDate.MinFromTime t).

(** Length in minutes of the window from "openHour:openMinute" to
    "closeHour:closeMinute". *)
Definition windowMinutes (openHour openMinute closeHour closeMinute : Z) : Z :=
  (closeHour * 60 + closeMinute) - (openHour * 60 + openMinute).

(** The first [n] instants a quarter of an hour apart, from
    [openTime] on. *)
Definition quarterHours (openTime : Z) (n : nat) : list Z :=
  map (fun k => openTime + 900000 * Z.of_nat k) (seq 0 n).

(** The statement that isOpenAt is true only inside the window of the
    resolved day, at one configuration and instant. *)
Definition openOnlyWithinWindow (config : StoreConfig.t) (instant : Z)
  (timezone : string) : Prop :=
  DateTimeService.isOpen
    (DateTimeService.getStoreStatus config instant timezone) = true ->
  let zone := StoreConfig.timezone config in
  exists openTime closeTime,
    resolveDay config (dateIn zone instant) (weekdayIn zone instant)
    = Open openTime closeTime
    /\ within openTime closeTime (wallClockIn zone instant) = true.

(** The statement that on a date with an open override the first slot
    starts at the opening time of the override, at one configuration
    and date. *)
Definition firstSlotAtOverrideOpening (config : StoreConfig.t) (date : Z)
  (timezone : string) : Prop :=
  forall override openTime closeTime fuel slots,
    find (fun o => String.eqb (StoreOverride.date o)
                     (DateTimeService.formatDateForAPI date timezone))
         (StoreConfig.overrides config) = Some override ->
    StoreOverride.isOpen override = true ->
    StoreOverride.openTime override = Some openTime ->
    StoreOverride.closeTime override = Some closeTime ->
    DateTimeService.generateTimeSlots fuel config date timezone = Some slots ->
    option_map TimeSlot.time (hd_error slots) = Some openTime.

(** The statement that a window of N minutes gives floor(N/15) slots,
    at one configuration and date. *)
Definition slotCountIsFloor (config : StoreConfig.t) (date : Z)
  (timezone : string) : Prop :=
  forall storeHours openHour openMinute closeHour closeMinute fuel slots,
    DateTimeService.isStoreOpen config date timezone = true ->
    find (fun h => StoreHours.dayOfWeek h =? JSDate.getDay date)
         (StoreConfig.hours config) = Some storeHours ->
    JS.NumberAt (JS.split ":" (StoreHours.openTime storeHours)) 0
      = Some openHour ->
    JS.NumberAt (JS.split ":" (StoreHours.openTime storeHours)) 1
      = Some openMinute ->
    JS.NumberAt (JS.split ":" (StoreHours.closeTime storeHours)) 0
      = Some closeHour ->
    JS.NumberAt (JS.split ":" (StoreHours.closeTime storeHours)) 1
      = Some closeMinute ->
    DateTimeService.generateTimeSlots fuel config date timezone = Some slots ->
    Z.of_nat (List.length slots)
    = windowMinutes openHour openMinute closeHour closeMinute / 15.

End WithRuntime.

(** An override record marked open without its pair of times. *)
Definition lacksWindow (o : APIService.StoreOverride.t) : Prop :=
  APIService.StoreOverride.is_open o = true
  /\ (APIService.StoreOverride.start_time o = None
      \/ APIService.StoreOverride.end_time o = None).

(** The statement that such a record makes the processing of the
    configuration fail with the error InvalidOverride, at one input. *)
Definition failsWithInvalidOverride (st : DateTimeService.State)
  (storeTimes : list APIService.StoreTime.t)
  (storeOverrides : list APIService.StoreOverride.t) : Prop :=
  (exists o, In o storeOverrides /\ lacksWindow o) ->
  exists message,
    DateTimeService.initializeStoreConfig st (Normal storeTimes)
      (Normal storeOverrides)
    = Throw (ErrorObject "InvalidOverride" message).

End Spec.

(** ** Scenarios *)

Module Scenario.

(** A device in New York in winter (UTC-5), and the offsets of the two
    zones the app switches between. *)
Definition newYorkWinter : Runtime :=
  {| LocalTZA := fun _ _ => -18000000;
     ZoneTZA := fun zone _ =>
       if String.eqb zone "America/New_York" then -18000000
       else if String.eqb zone "America/Los_Angeles" then -28800000
       else 0;
     deviceTimeZone := "America/New_York" |}.

(** The instant at which the clock of that device shows the given
    date and time. *)
Definition localInstant (year month day hour minute second : Z) : Z :=
  JSDate.MakeDate (JSDate.daysFromCivil year month day)
                  (JSDate.MakeTime hour minute second 0) + 18000000.

Definition newYork : string := "America/New_York".

(** Thursday 2025-12-25, noon. *)
Definition christmasNoon : Z := localInstant 2025 12 25 12 0 0.

Definition christmasClosed : StoreOverride.t :=
  StoreOverride.mk "2025-12-25" false None None None.

(** Thursday open 09:00-17:00, 2025-12-25 overridden closed. *)
Definition thursdayButChristmas : StoreConfig.t :=
  StoreConfig.mk newYork [StoreHours.mk 4 "09:00" "17:00"] [christmasClosed].

Definition christmasShortDay : StoreOverride.t :=
  StoreOverride.mk "2025-12-25" true (Some "12:00") (Some "14:00") None.

(** Thursday open 09:00-17:00, 2025-12-25 overridden open
    12:00-14:00. *)
Definition thursdayShortChristmas : StoreConfig.t :=
  StoreConfig.mk newYork [StoreHours.mk 4 "09:00" "17:00"] [christmasShortDay].

(** Monday 2025-12-22 at 00:00, 08:00 and 23:00. *)
Definition monday : Z := localInstant 2025 12 22 0 0 0.
Definition mondayMorning : Z := localInstant 2025 12 22 8 0 0.
Definition mondayLateEvening : Z := localInstant 2025 12 22 23 0 0.

(** Monday 09:00-17:00, no overrides. *)
Definition mondayOnly : StoreConfig.t :=
  StoreConfig.mk newYork [StoreHours.mk 1 "09:00" "17:00"] [].

(** Monday 09:00-09:50, no overrides. *)
Definition mondayFiftyMinutes : StoreConfig.t :=
  StoreConfig.mk newYork [StoreHours.mk 1 "09:00" "09:50"] [].

Definition closedOn (date : string) : StoreOverride.t :=
  StoreOverride.mk date false None None None.

(** Monday 09:00-17:00, and every date from 2025-12-22 to 2025-12-29
    overridden closed. *)
Definition closedAllWeek : StoreConfig.t :=
  StoreConfig.mk newYork [StoreHours.mk 1 "09:00" "17:00"]
    (map closedOn
       ["2025-12-22"; "2025-12-23"; "2025-12-24"; "2025-12-25";
        "2025-12-26"; "2025-12-27"; "2025-12-28"; "2025-12-29"]).

(** Monday 2025-12-22, 10:00, and an opening on Tuesday at 00:30. *)
Definition mondayTen : Z := localInstant 2025 12 22 10 0 0.
Definition tuesdayHalfPastMidnight : StoreConfig.t :=
  StoreConfig.mk newYork [StoreHours.mk 2 "00:30" "08:00"] [].

(** Sunday 2025-12-21, 07:00. *)
Definition sundayEarly : Z := localInstant 2025 12 21 7 0 0.

(** A viewer located in a city called X, in the device's own zone. *)
Definition inCityX : DateTimeService.State :=
  DateTimeService.setUserLocation DateTimeService.initialState
    (Some (LocationService.mkLocation "X" "" "" newYork
             (LocationService.mkCoordinates 0 0))).

(** An override record marked open that carries no times. *)
Definition openWithoutTimes : APIService.StoreOverride.t :=
  APIService.StoreOverride.mk "7" 25 12 true None None.

Definition mondayRecord : APIService.StoreTime.t :=
  APIService.StoreTime.mk "1" 1 true "09:00" "17:00".

(** Monday 2025-12-22, 18:00. *)
Definition mondayEvening : Z := localInstant 2025 12 22 18 0 0.

(** Friday 2026-12-25, noon: the same day of the year after 2025. *)
Definition nextChristmasNoon : Z := localInstant 2026 12 25 12 0 0.

Definition christmasRecord : APIService.StoreOverride.t :=
  APIService.StoreOverride.mk "9" 25 12 false None None.

Definition noFaults : NotificationService.Faults :=
  NotificationService.mkFaults false false false.

(** A viewer located in Manhattan who switched to the alternative
    timezone. *)
Definition manhattan : LocationService.LocationData :=
  LocationService.mkLocation "New York" "NY" "United States" newYork
    (LocationService.mkCoordinates (407128 # 10000) (- (740060 # 10000))).

Definition newYorkerLookingWest : DateTimeService.State :=
  DateTimeService.toggleTimezone
    (DateTimeService.setUserLocation DateTimeService.initialState
       (Some manhattan)).

End Scenario.

(** ** The calendar, checked era by era *)

Module Calendar.

(** The [n] integers from [start] on. *)
Fixpoint countFrom (start : Z) (n : nat) : list Z :=
  match n with
  | O => []
  | S k => start :: countFrom (start + 1) k
  end.

(** For a day [doe] of a 400-year era: the year of the era lies in
    0..399, the month in 1..12, the day in 1..31, and the day number
    computed back from them is [doe]. *)
Definition roundTrips (doe : Z) : bool :=
  let yoe := (doe - doe / 1460 + doe / 36524 - doe / 146096) / 365 in
  let doy := doe - (365 * yoe + yoe / 4 - yoe / 100) in
  let mp := (5 * doy + 2) / 153 in
  let d := doy - (153 * mp + 2) / 5 + 1 in
  let m := if mp <? 10 then mp + 3 else mp - 9 in
  (0 <=? yoe) && (yoe <=? 399) && (1 <=? m) && (m <=? 12)
  && (1 <=? d) && (d <=? 31)
  && (yoe * 365 + yoe / 4 - yoe / 100
      + ((153 * (if 2 <? m then m - 3 else m + 9) + 2) / 5 + d - 1) =? doe).

Definition daysOfEra : list Z := countFrom 0 (Z.to_nat 146097).

(** "HH:MM" of a minute of the day. *)
Definition clockText (minuteOfDay : Z) : string :=
  JSDate.pad2 (minuteOfDay / 60) ++ ":" ++ JSDate.pad2 (minuteOfDay mod 60).

(** The text of a minute of the day reads back as its hour and
    minute. *)
Definition readsBack (minuteOfDay : Z) : bool :=
  match JS.NumberAt (JS.split ":" (clockText minuteOfDay)) 0,
        JS.NumberAt (JS.split ":" (clockText minuteOfDay)) 1 with
  | Some h, Some m => (h =? minuteOfDay / 60) && (m =? minuteOfDay mod 60)
  | _, _ => false
  end.

Definition minutesOfDay : list Z := countFrom 0 1440.

(** A year from 0 to 9999 is written with four characters, which are
    those of 2025 for that year only. *)
Definition yearText (year : Z) : string := JS.padStart0 4 (JS.toString year).

Definition yearTextChecks (year : Z) : bool :=
  (String.length (yearText year) =? 4)%nat
  && (String.eqb (yearText year) "2025" || negb (year =? 2025))
  && (negb (String.eqb (yearText year) "2025") || (year =? 2025)).

Definition years : list Z := countFrom 0 (Z.to_nat 10000).

End Calendar.

(** * Properties *)

(** ** Lists and strings *)

Lemma find_unique_date (overrides : list StoreOverride.t) (o : StoreOverride.t) :
  NoDup (map StoreOverride.date overrides) ->
  In o overrides ->
  find (fun o' => String.eqb (StoreOverride.date o') (StoreOverride.date o))
       overrides = Some o.
Proof.
  induction overrides as [|x rest IH]; simpl; intros Hnodup Hin.
  - contradiction.
  - inversion Hnodup as [|? ? Hfresh Hrest]; subst.
    destruct Hin as [->|Hin].
    + now rewrite String.eqb_refl.
    + destruct (String.eqb_spec (StoreOverride.date x) (StoreOverride.date o))
        as [Heq|_].
      * exfalso. apply Hfresh. rewrite Heq. now apply in_map.
      * now apply IH.
Qed.

Lemma find_date_none (overrides : list StoreOverride.t) (date : string) :
  find (fun o => String.eqb (StoreOverride.date o) date) overrides = None <->
  (forall o, In o overrides -> StoreOverride.date o <> date).
Proof.
  split.
  - intros Hnone o Hin Heq.
    apply (find_none _ _ Hnone) in Hin. simpl in Hin.
    rewrite Heq, String.eqb_refl in Hin. discriminate.
  - intros Hall. induction overrides as [|x rest IH]; simpl; [reflexivity|].
    destruct (String.eqb_spec (StoreOverride.date x) date) as [Heq|_].
    + exfalso. now apply (Hall x (or_introl eq_refl)).
    + apply IH. intros o Hin. apply Hall. now right.
Qed.

Lemma find_weekday_some (hours : list StoreHours.t) (day : Z) :
  (exists h, find (fun h => StoreHours.dayOfWeek h =? day) hours = Some h) <->
  (exists h, In h hours /\ StoreHours.dayOfWeek h = day).
Proof.
  split.
  - intros [h Hfind]. exists h. apply find_some in Hfind.
    destruct Hfind as [Hin Heq]. split; [exact Hin|]. now apply Z.eqb_eq.
  - intros [h [Hin Heq]].
    destruct (find (fun h => StoreHours.dayOfWeek h =? day) hours) as [h'|] eqn:E.
    + now exists h'.
    + apply (find_none _ _ E) in Hin. simpl in Hin.
      apply Z.eqb_neq in Hin. contradiction.
Qed.

(** ** Dates on a device whose offset from UTC does not change *)

Section SteadyOffset.
Context {rt : Runtime}.
Variable offset : Z.
Hypothesis steady : forall t isUTC, LocalTZA t isUTC = offset.

Lemma time_value_fields (t : Z) :
  t = JSDate.MakeDate (JSDate.Day t)
        (JSDate.MakeTime (JSDate.HourFromTime t) (JSDate.MinFromTime t)
           (JSDate.SecFromTime t) (JSDate.msFromTime t)).
Proof.
  unfold JSDate.MakeDate, JSDate.MakeTime, JSDate.Day, JSDate.HourFromTime,
    JSDate.MinFromTime, JSDate.SecFromTime, JSDate.msFromTime,
    JSDate.msPerDay, JSDate.msPerHour, JSDate.msPerMinute, JSDate.msPerSecond.
  Z.div_mod_to_equations. lia.
Qed.

Lemma setHours_steady (d hour min : Z) :
  JSDate.setHours d hour min 0 0
  = JSDate.Day (d + offset) * 86400000 + hour * 3600000 + min * 60000 - offset.
Proof.
  unfold JSDate.setHours, JSDate.UTC, JSDate.LocalTime, JSDate.MakeDate,
    JSDate.MakeTime.
  rewrite !steady.
  unfold JSDate.msPerDay, JSDate.msPerHour, JSDate.msPerMinute,
    JSDate.msPerSecond.
  lia.
Qed.

Lemma quarter_hour_later (t : Z) :
  JSDate.setMinutes t (JSDate.getMinutes t + 15) = t + 900000.
Proof.
  unfold JSDate.setMinutes, JSDate.getMinutes, JSDate.UTC, JSDate.LocalTime.
  rewrite !steady.
  pose proof (time_value_fields (t + offset)) as Hfields.
  unfold JSDate.MakeDate, JSDate.MakeTime, JSDate.msPerDay, JSDate.msPerHour,
    JSDate.msPerMinute, JSDate.msPerSecond in *.
  lia.
Qed.

(** The window from [hour:min] to [hour':min'] of one day, in
    milliseconds. *)
Lemma window_length (d hour min hour' min' : Z) :
  JSDate.setHours d hour' min' 0 0 - JSDate.setHours d hour min 0 0
  = Spec.windowMinutes hour min hour' min' * 60000.
Proof.
  rewrite !setHours_steady. unfold Spec.windowMinutes. lia.
Qed.

Lemma quarterHours_succ (t : Z) (n : nat) :
  Spec.quarterHours t (S n) = t :: Spec.quarterHours (t + 900000) n.
Proof.
  unfold Spec.quarterHours. cbn [seq map].
  rewrite <- seq_shift, map_map. f_equal; [lia|].
  apply map_ext. intros k. lia.
Qed.

(** The loop emits a slot every quarter of an hour while the time is
    before [closeTime], and ends. *)
Lemma slotLoop_steady (dateString timezone : string) (closeTime : Z) :
  forall (fuel : nat) (currentTime : Z),
    let n := Z.to_nat ((closeTime - currentTime + 899999) / 900000) in
    (n < fuel)%nat ->
    DateTimeService.slotLoop fuel dateString timezone currentTime closeTime
    = Some (map (DateTimeService.slotAt dateString timezone)
              (Spec.quarterHours currentTime n)).
Proof.
  induction fuel as [|fuel IH]; intros currentTime n Hfuel; [lia|].
  cbn [DateTimeService.slotLoop].
  destruct (Z.ltb_spec currentTime closeTime) as [Hlt|Hge].
  - rewrite quarter_hour_later.
    assert (Hn : n = S (Z.to_nat ((closeTime - (currentTime + 900000) + 899999)
                                  / 900000))).
    { subst n. rewrite <- Z2Nat.inj_succ.
      - f_equal. Z.div_mod_to_equations. lia.
      - Z.div_mod_to_equations. lia. }
    rewrite IH by lia.
    now rewrite Hn, quarterHours_succ.
  - assert (Hn : n = O).
    { assert (Hq : (closeTime - currentTime + 899999) / 900000 <= 0)
        by (Z.div_mod_to_equations; lia).
      subst n. lia. }
    now rewrite Hn.
Qed.

Lemma quarterHours_length (t : Z) (n : nat) :
  List.length (Spec.quarterHours t n) = n.
Proof.
  unfold Spec.quarterHours. now rewrite length_map, length_seq.
Qed.

(** Every start among the first ceil(N/15) quarter hours lies before
    the end of a window of N minutes. *)
Lemma quarterHours_inside (t N : Z) :
  Forall (fun start => t <= start < t + N * 60000)
         (Spec.quarterHours t (Z.to_nat ((N + 14) / 15))).
Proof.
  apply Forall_forall. intros start Hin.
  unfold Spec.quarterHours in Hin. apply in_map_iff in Hin.
  destruct Hin as [k [<- Hk]]. apply in_seq in Hk.
  assert (Hq : Z.of_nat k < (N + 14) / 15) by lia.
  Z.div_mod_to_equations. lia.
Qed.

Lemma toTimeStringHM_setHours (d hour min : Z) :
  0 <= hour < 24 -> 0 <= min < 60 ->
  JSDate.toTimeStringHM (JSDate.setHours d hour min 0 0)
  = JSDate.pad2 hour ++ ":" ++ JSDate.pad2 min.
Proof.
  intros Hhour Hmin. unfold JSDate.toTimeStringHM, JSDate.LocalTime.
  rewrite steady, setHours_steady.
  set (D := JSDate.Day (d + offset)).
  replace (JSDate.HourFromTime _) with hour.
  - replace (JSDate.MinFromTime _) with min; [reflexivity|].
    unfold JSDate.MinFromTime, JSDate.msPerMinute.
    Z.div_mod_to_equations. lia.
  - unfold JSDate.HourFromTime, JSDate.msPerHour.
    Z.div_mod_to_equations. lia.
Qed.

(** On an open day with a weekly entry, the slots are the quarter
    hours of the weekly window. *)
Lemma generateTimeSlots_steady (config : StoreConfig.t) (date : Z)
  (timezone : string) (storeHours : StoreHours.t)
  (openHour openMinute closeHour closeMinute : Z) (fuel : nat) :
  DateTimeService.isStoreOpen config date timezone = true ->
  find (fun h => StoreHours.dayOfWeek h =? JSDate.getDay date)
       (StoreConfig.hours config) = Some storeHours ->
  JS.NumberAt (JS.split ":" (StoreHours.openTime storeHours)) 0
    = Some openHour ->
  JS.NumberAt (JS.split ":" (StoreHours.openTime storeHours)) 1
    = Some openMinute ->
  JS.NumberAt (JS.split ":" (StoreHours.closeTime storeHours)) 0
    = Some closeHour ->
  JS.NumberAt (JS.split ":" (StoreHours.closeTime storeHours)) 1
    = Some closeMinute ->
  let n := Z.to_nat
             ((Spec.windowMinutes openHour openMinute closeHour closeMinute
               + 14) / 15) in
  (n < fuel)%nat ->
  DateTimeService.generateTimeSlots fuel config date timezone
  = Some (map (DateTimeService.slotAt
                 (DateTimeService.formatDateForAPI date timezone) timezone)
            (Spec.quarterHours (JSDate.setHours date openHour openMinute 0 0)
               n)).
Proof.
  intros Hopen Hfind Hoh Hom Hch Hcm n Hfuel.
  unfold DateTimeService.generateTimeSlots.
  rewrite Hopen, Hfind, Hoh, Hom, Hch, Hcm. cbn [negb].
  pose proof (window_length date openHour openMinute closeHour closeMinute)
    as Hwindow.
  set (N := Spec.windowMinutes openHour openMinute closeHour closeMinute) in *.
  assert (Hn : Z.to_nat ((JSDate.setHours date closeHour closeMinute 0 0
                          - JSDate.setHours date openHour openMinute 0 0
                          + 899999) / 900000) = n).
  { subst n. f_equal. rewrite Hwindow. Z.div_mod_to_equations. lia. }
  rewrite slotLoop_steady; rewrite Hn; [reflexivity | exact Hfuel].
Qed.

End SteadyOffset.

(** ** Day resolution *)

(** An override for the date decides [isStoreOpen]. *)
Lemma isStoreOpen_override {rt : Runtime} (config : StoreConfig.t) (date : Z)
  (timezone : string) (override : StoreOverride.t) :
  find (fun o => String.eqb (StoreOverride.date o)
                   (DateTimeService.formatDateForAPI date timezone))
       (StoreConfig.overrides config) = Some override ->
  DateTimeService.isStoreOpen config date timezone
  = StoreOverride.isOpen override.
Proof.
  intros Hfind. unfold DateTimeService.isStoreOpen. now rewrite Hfind.
Qed.

(** C1. For every configuration and every date that has an override
    entry, isStoreOpen returns the isOpen flag of the override entry
    of that date, whatever the weekly table holds for the weekday.
    The entry is the first one for the date, which is the only one
    when there is at most one override per date, as the data model
    requires. *)
Theorem C1_override_precedence :
  forall (rt : Runtime) (config : StoreConfig.t) (date : Z)
         (timezone : string) (override : StoreOverride.t),
    In override (StoreConfig.overrides config) ->
    StoreOverride.date override
    = DateTimeService.formatDateForAPI date timezone ->
    exists found,
      find (fun o => String.eqb (StoreOverride.date o)
                       (DateTimeService.formatDateForAPI date timezone))
           (StoreConfig.overrides config) = Some found
      /\ In found (StoreConfig.overrides config)
      /\ StoreOverride.date found
         = DateTimeService.formatDateForAPI date timezone
      /\ (NoDup (map StoreOverride.date (StoreConfig.overrides config)) ->
          found = override)
      /\ forall weekly : list StoreHours.t,
           DateTimeService.isStoreOpen
             (StoreConfig.mk (StoreConfig.timezone config) weekly
                             (StoreConfig.overrides config))
             date timezone
           = StoreOverride.isOpen found.
Proof.
  intros rt config date timezone override Hin Hdate.
  destruct (find (fun o => String.eqb (StoreOverride.date o)
                              (DateTimeService.formatDateForAPI date timezone))
                 (StoreConfig.overrides config)) as [found|] eqn:Hfind.
  - exists found. split; [reflexivity|].
    pose proof (find_some _ _ Hfind) as [Hfound Hsame].
    apply String.eqb_eq in Hsame.
    split; [exact Hfound|]. split; [exact Hsame|]. split.
    + intros Hnodup.
      pose proof (find_unique_date _ override Hnodup Hin) as Hunique.
      rewrite Hdate, Hfind in Hunique. now injection Hunique.
    + intros weekly. now apply isStoreOpen_override.
  - exfalso. now apply (proj1 (find_date_none _ _) Hfind override Hin).
Qed.

(** The scenario of C1: Thursday 2025-12-25 is overridden closed and
    resolves closed although Thursdays are open 09:00-17:00. *)
Lemma C1_christmas_resolves_closed :
  JSDate.getDay (rt := Scenario.newYorkWinter) Scenario.christmasNoon = 4
  /\ find (fun h => StoreHours.dayOfWeek h =? 4)
          (StoreConfig.hours Scenario.thursdayButChristmas)
     = Some (StoreHours.mk 4 "09:00" "17:00")
  /\ DateTimeService.formatDateForAPI (rt := Scenario.newYorkWinter)
       Scenario.christmasNoon Scenario.newYork = "2025-12-25"
  /\ DateTimeService.isStoreOpen (rt := Scenario.newYorkWinter)
       Scenario.thursdayButChristmas Scenario.christmasNoon Scenario.newYork
     = false.
Proof.
  split; [reflexivity|]. split; [reflexivity|]. split; [reflexivity|].
  destruct (C1_override_precedence Scenario.newYorkWinter
              Scenario.thursdayButChristmas Scenario.christmasNoon
              Scenario.newYork Scenario.christmasClosed
              (or_introl eq_refl) eq_refl)
    as [found (_ & _ & _ & Hunique & Hflag)].
  specialize (Hflag (StoreConfig.hours Scenario.thursdayButChristmas)).
  rewrite Hunique in Hflag; [exact Hflag|].
  repeat constructor. simpl. tauto.
Defined.

(** ** Slot generation *)


Example fifty_minute_window_slots :
  option_map (map TimeSlot.time)
    (DateTimeService.generateTimeSlots (rt := Scenario.newYorkWinter) 8
       Scenario.mondayFiftyMinutes Scenario.monday Scenario.newYork)
  = Some ["09:00"; "09:15"; "09:30"; "09:45"]
  /\ Spec.windowMinutes 9 0 9 50 / 15 = 3.
Proof. split; reflexivity. Qed.




Example christmas_short_day_slots :
  StoreOverride.openTime Scenario.christmasShortDay = Some "12:00"
  /\ option_map (fun slots => map TimeSlot.id (firstn 2 slots))
       (DateTimeService.generateTimeSlots (rt := Scenario.newYorkWinter) 40
          Scenario.thursdayShortChristmas Scenario.christmasNoon
          Scenario.newYork)
     = Some ["2025-12-25-09:00"; "2025-12-25-09:15"].
Proof. split; reflexivity. Qed.



(** ** The status query *)


Example monday_late_evening_status :
  DateTimeService.getStoreStatus (rt := Scenario.newYorkWinter)
    Scenario.mondayOnly Scenario.mondayLateEvening Scenario.newYork
  = DateTimeService.mkStatus true None
  /\ Spec.wallClockIn (rt := Scenario.newYorkWinter) Scenario.newYork
       Scenario.mondayLateEvening = "23:00"
  /\ Spec.resolveDay Scenario.mondayOnly "2025-12-22" 1
     = Spec.Open "09:00" "17:00"
  /\ Spec.within "09:00" "17:00" "23:00" = false.
Proof. repeat split; reflexivity. Qed.



(** C10. The object getStoreStatus returns never carries nextOpen. *)
Theorem C10_status_without_nextOpen :
  forall (rt : Runtime) (config : StoreConfig.t) (now : Z) (timezone : string),
    DateTimeService.nextOpen
      (DateTimeService.getStoreStatus config now timezone) = None.
Proof.
  intros rt config now timezone. reflexivity.
Qed.

(** ** Loading the configuration *)

(** When both requests succeed, the configuration is the conversion of
    what they returned. *)
Lemma initializeStoreConfig_fetched (st : DateTimeService.State)
  (storeTimes : list APIService.StoreTime.t)
  (storeOverrides : list APIService.StoreOverride.t) :
  DateTimeService.initializeStoreConfig st (Normal storeTimes)
    (Normal storeOverrides)
  = Normal (DateTimeService.initializedWith st
              (StoreConfig.mk "America/New_York"
                 (map APIService.convertStoreTime
                    (filter APIService.StoreTime.is_open storeTimes))
                 (map APIService.convertStoreOverride storeOverrides))).
Proof. reflexivity. Qed.

(** The result of getStoreConfig, and when it carries an error. *)
Lemma getStoreConfig_result
  (timesNetwork : completion (list APIService.StoreTime.t))
  (overridesNetwork : completion (list APIService.StoreOverride.t)) :
  exists fetched,
    APIService.getStoreConfig timesNetwork overridesNetwork = Normal fetched
    /\ (APIService.resultError fetched <> None ->
        JS.truthy (APIService.resultError fetched) = true)
    /\ (APIService.resultError fetched <> None <->
        JS.truthy (APIService.error (APIService.makeRequest timesNetwork))
        || JS.truthy (APIService.error (APIService.makeRequest overridesNetwork))
        = true).
Proof.
  unfold APIService.getStoreConfig, APIService.getStoreTimes,
    APIService.getStoreOverrides.
  cbn [bind tryCatch].
  destruct (JS.truthy (APIService.error (APIService.makeRequest timesNetwork))
            || JS.truthy
                 (APIService.error (APIService.makeRequest overridesNetwork)))
    eqn:HhasError;
    eexists; (split; [reflexivity|]); cbn [APIService.resultError]; split.
  - intros _. reflexivity.
  - split; [reflexivity | discriminate].
  - intros Hsome. now contradiction Hsome.
  - split; [intros Hsome; now contradiction Hsome | discriminate].
Qed.

(** Against C8 as stated: an override record marked open without
    times is taken into the configuration, and initialization
    completes. *)
Lemma C8_open_override_without_times_accepted :
  ~ Spec.failsWithInvalidOverride DateTimeService.initialState
      [Scenario.mondayRecord] [Scenario.openWithoutTimes].
Proof.
  intros Hclaim. destruct Hclaim as [message Hthrown].
  - exists Scenario.openWithoutTimes. split; [now left|].
    split; [reflexivity | now left].
  - discriminate Hthrown.
Qed.

(** C8, amended.  An override record marked open that lacks a time is
    accepted as it is: when both requests succeed, initialization
    completes normally, and the configuration holds the conversion of
    the record, marked open and still lacking that time. *)
Theorem C8_open_override_kept_without_window :
  forall (st : DateTimeService.State)
         (storeTimes : list APIService.StoreTime.t)
         (storeOverrides : list APIService.StoreOverride.t)
         (o : APIService.StoreOverride.t),
    In o storeOverrides ->
    Spec.lacksWindow o ->
    exists st',
      DateTimeService.initializeStoreConfig st (Normal storeTimes)
        (Normal storeOverrides) = Normal st'
      /\ StoreConfig.overrides (DateTimeService.STORE_CONFIG st')
         = map APIService.convertStoreOverride storeOverrides
      /\ In (APIService.convertStoreOverride o)
            (StoreConfig.overrides (DateTimeService.STORE_CONFIG st'))
      /\ StoreOverride.isOpen (APIService.convertStoreOverride o) = true
      /\ (StoreOverride.openTime (APIService.convertStoreOverride o) = None
          \/ StoreOverride.closeTime (APIService.convertStoreOverride o)
             = None).
Proof.
  intros st storeTimes storeOverrides o Hin [Hopen Hmissing].
  eexists. split; [apply initializeStoreConfig_fetched|].
  cbn [DateTimeService.initializedWith DateTimeService.STORE_CONFIG
       StoreConfig.overrides].
  split; [reflexivity|]. split; [now apply in_map|].
  split; [exact Hopen | exact Hmissing].
Qed.

(** The record of 25 December marked open without times ends up in
    the configuration as an open override without a window. *)
Lemma C8_christmas_record_accepted :
  exists st',
    DateTimeService.initializeStoreConfig DateTimeService.initialState
      (Normal [Scenario.mondayRecord]) (Normal [Scenario.openWithoutTimes])
    = Normal st'
    /\ StoreConfig.overrides (DateTimeService.STORE_CONFIG st')
       = [StoreOverride.mk "2025-12-25" true None None
            (Some "Override for 12/25")].
Proof.
  destruct (C8_open_override_kept_without_window DateTimeService.initialState
              [Scenario.mondayRecord] [Scenario.openWithoutTimes]
              Scenario.openWithoutTimes (or_introl eq_refl)
              (conj eq_refl (or_introl eq_refl)))
    as [st' (Hinit & Hoverrides & _)].
  exists st'. split; [exact Hinit|]. rewrite Hoverrides. reflexivity.
Defined.

(** C9. Whenever the fetch reports an error, initialization completes
    normally with exactly the default configuration: Monday to Friday
    09:00-17:00, Saturday 10:00-16:00, Sunday 10:00-18:00, timezone
    America/New_York, no overrides. *)
Theorem C9_fallback_on_fetch_error :
  forall (st : DateTimeService.State)
         (timesNetwork : completion (list APIService.StoreTime.t))
         (overridesNetwork : completion (list APIService.StoreOverride.t))
         (fetched : APIService.StoreConfigResult),
    APIService.getStoreConfig timesNetwork overridesNetwork = Normal fetched ->
    APIService.resultError fetched <> None ->
    DateTimeService.initializeStoreConfig st timesNetwork overridesNetwork
    = Normal
        (DateTimeService.mkState
           (StoreConfig.mk "America/New_York"
              [ StoreHours.mk 0 "10:00" "18:00";
                StoreHours.mk 1 "09:00" "17:00";
                StoreHours.mk 2 "09:00" "17:00";
                StoreHours.mk 3 "09:00" "17:00";
                StoreHours.mk 4 "09:00" "17:00";
                StoreHours.mk 5 "09:00" "17:00";
                StoreHours.mk 6 "10:00" "16:00" ]
              [])
           (DateTimeService.selectedDate st)
           (DateTimeService.selectedTimeSlot st)
           (DateTimeService.useAlternativeTimezone st)
           (DateTimeService.userLocation st)
           true).
Proof.
  intros st timesNetwork overridesNetwork fetched Hfetched Herror.
  destruct (getStoreConfig_result timesNetwork overridesNetwork)
    as [fetched' (Hfetched' & Htruthy & _)].
  rewrite Hfetched in Hfetched'. injection Hfetched' as <-.
  unfold DateTimeService.initializeStoreConfig.
  rewrite Hfetched. cbn [bind tryCatch]. now rewrite (Htruthy Herror).
Qed.

(** A request for the store times that timed out: the default
    configuration is installed. *)
Lemma C9_timeout_installs_default :
  APIService.resultError
    (APIService.mkResult [] []
       (Some "Times: Request timeout, Overrides: OK")) <> None
  /\ DateTimeService.initializeStoreConfig DateTimeService.initialState
       (Throw (ErrorObject "AbortError" "Aborted")) (Normal [])
     = Normal (DateTimeService.initializedWith DateTimeService.initialState
                 DateTimeService.fallbackConfiguration).
Proof.
  split; [discriminate|].
  apply (C9_fallback_on_fetch_error DateTimeService.initialState
           (Throw (ErrorObject "AbortError" "Aborted")) (Normal [])
           (APIService.mkResult [] []
              (Some "Times: Request timeout, Overrides: OK"))).
  - reflexivity.
  - discriminate.
Defined.

(** ** The next opening and its reminder *)

(** Without weekly hours the finder finds nothing. *)
Lemma getNextStoreOpeningTime_no_hours (rt : Runtime)
  (storeConfig : StoreConfig.t) (now : Z) :
  StoreConfig.hours storeConfig = [] ->
  NotificationService.getNextStoreOpeningTime storeConfig now = None.
Proof.
  intros Hempty. unfold NotificationService.getNextStoreOpeningTime.
  rewrite Hempty. cbn [find].
  generalize 1. generalize 7%nat.
  intros remaining. induction remaining as [|remaining IH]; intros i.
  - reflexivity.
  - cbn [NotificationService.checkNextDays]. rewrite Hempty. cbn [find].
    apply IH.
Qed.

(** C5, at a configuration the finder gets wrong.  Every date from
    Monday 2025-12-22 to Monday 2025-12-29 is overridden closed and
    resolves closed, yet the finder, which reads the weekly table
    only, answers with Monday's hours. *)
Theorem C5_finder_ignores_overrides :
  forallb
    (fun i =>
       negb (DateTimeService.isStoreOpen (rt := Scenario.newYorkWinter)
               Scenario.closedAllWeek
               (Scenario.mondayMorning + i * JSDate.msPerDay)
               Scenario.newYork))
    [0; 1; 2; 3; 4; 5; 6; 7] = true
  /\ NotificationService.getNextStoreOpeningTime
       (rt := Scenario.newYorkWinter) Scenario.closedAllWeek
       Scenario.mondayMorning
     = Some (NotificationService.StoreOpeningTime.mk 1 "09:00" "17:00").
Proof.
  split; vm_compute; reflexivity.
Qed.

(** C6, at two openings the reminder gets wrong.  On Monday
    2025-12-22 at 10:00 the next opening is Tuesday 00:30; sixty
    minutes before it is Monday 23:30, and the time computed is
    Tuesday 23:30, 23 hours after the opening.  With the default
    configuration on Sunday 2025-12-21 at 07:00 the opening found is
    Monday 09:00; the time computed is 08:00 on that Sunday, not on
    the Monday. *)
Theorem C6_reminder_not_an_hour_before :
  (NotificationService.getNextStoreOpeningTime (rt := Scenario.newYorkWinter)
     Scenario.tuesdayHalfPastMidnight Scenario.mondayTen
   = Some (NotificationService.StoreOpeningTime.mk 2 "00:30" "08:00")
   /\ NotificationService.calculateNotificationTime
        (rt := Scenario.newYorkWinter) Scenario.mondayTen
        (NotificationService.StoreOpeningTime.mk 2 "00:30" "08:00")
      = Some (ValidDate (Scenario.localInstant 2025 12 23 23 30 0))
   /\ Scenario.localInstant 2025 12 23 0 30 0 - 60 * JSDate.msPerMinute
      = Scenario.localInstant 2025 12 22 23 30 0
   /\ Scenario.localInstant 2025 12 23 23 30 0
      - Scenario.localInstant 2025 12 23 0 30 0
      = 23 * JSDate.msPerHour)
  /\
  (NotificationService.getNextStoreOpeningTime (rt := Scenario.newYorkWinter)
     DateTimeService.fallbackConfiguration Scenario.sundayEarly
   = Some (NotificationService.StoreOpeningTime.mk 1 "09:00" "17:00")
   /\ NotificationService.calculateNotificationTime
        (rt := Scenario.newYorkWinter) Scenario.sundayEarly
        (NotificationService.StoreOpeningTime.mk 1 "09:00" "17:00")
      = Some (ValidDate (Scenario.localInstant 2025 12 21 8 0 0))
   /\ Scenario.localInstant 2025 12 22 9 0 0 - 60 * JSDate.msPerMinute
      = Scenario.localInstant 2025 12 22 8 0 0).
Proof.
  repeat split; vm_compute; reflexivity.
Qed.

(** What the reminder gets right: on a device whose offset from UTC
    does not change, when the time one hour before [openTime] on the
    day of [now] is still ahead, the reminder is set to it, sixty
    minutes before [openTime] on that day. *)
Lemma calculateNotificationTime_today (rt : Runtime) (offset : Z) (now : Z)
  (openingTime : NotificationService.StoreOpeningTime.t)
  (openHour openMinute : Z) :
  (forall t isUTC, LocalTZA t isUTC = offset) ->
  JS.NumberAt
    (JS.split ":" (NotificationService.StoreOpeningTime.openTime openingTime))
    0 = Some openHour ->
  JS.NumberAt
    (JS.split ":" (NotificationService.StoreOpeningTime.openTime openingTime))
    1 = Some openMinute ->
  now < JSDate.setHours now (openHour - 1) openMinute 0 0 ->
  NotificationService.calculateNotificationTime now openingTime
  = Some (ValidDate (JSDate.setHours now openHour openMinute 0 0
                     - 60 * JSDate.msPerMinute)).
Proof.
  intros Hsteady Hhour Hminute Hahead.
  unfold NotificationService.calculateNotificationTime.
  rewrite Hhour, Hminute.
  destruct (Z.leb_spec (JSDate.setHours now (openHour - 1) openMinute 0 0) now)
    as [Hpast|_]; [lia|].
  do 2 f_equal. rewrite !(setHours_steady offset Hsteady).
  unfold JSDate.msPerMinute. lia.
Qed.

(** ** The greeting *)

Lemma append_mark_differs (s : string) : s ++ "!" <> s.
Proof.
  induction s as [|c s IH]; simpl; [discriminate|].
  intros Heq. injection Heq as Heq. now apply IH.
Qed.

(** C7, the text of the greeting against the text the bands call for.
    From 05:00 to 21:00 the two differ: the code puts no comma after
    "Good Morning", "Good Afternoon" and "Good Evening", and ends the
    late-morning greeting with an exclamation mark.  In the night band
    they agree. *)
Theorem C7_greeting_text :
  forall (rt : Runtime) (st : DateTimeService.State) (now : Z),
    let hour :=
      JSDate.getHours
        (DateTimeService.getCurrentTimeInTimezone now
           (DateTimeService.getActiveTimezone st)) in
    let city := DateTimeService.getActiveCityName st in
    (5 <= hour < 21 ->
     DateTimeService.getGreetingMessage st now <> Spec.greeting hour city)
    /\ (hour < 5 \/ 21 <= hour ->
        DateTimeService.getGreetingMessage st now = Spec.greeting hour city).
Proof.
  intros rt st now hour city.
  unfold DateTimeService.getGreetingMessage, Spec.greeting.
  fold hour city.
  destruct (Z.leb_spec 5 hour), (Z.ltb_spec hour 10),
    (Z.leb_spec 10 hour), (Z.ltb_spec hour 12),
    (Z.leb_spec 12 hour), (Z.ltb_spec hour 17),
    (Z.leb_spec 17 hour), (Z.ltb_spec hour 21);
    try lia; cbn [andb]; (split; [intros Hband | intros Hnight]);
    try lia; try reflexivity; simpl; intros Heq.
  - discriminate Heq.
  - injection Heq as Heq. now apply append_mark_differs in Heq.
  - discriminate Heq.
  - discriminate Heq.
Qed.

(** The boundary instants of C7 for a viewer in a city called X: at
    05:00:00 and at 20:59:59 the comma is missing; at 04:59:59 and at
    21:00:00 the text is the expected one. *)
Lemma C7_boundary_greetings :
  DateTimeService.getGreetingMessage (rt := Scenario.newYorkWinter)
    Scenario.inCityX (Scenario.localInstant 2025 12 22 5 0 0)
  = "Good Morning X!"
  /\ DateTimeService.getGreetingMessage (rt := Scenario.newYorkWinter)
       Scenario.inCityX (Scenario.localInstant 2025 12 22 5 0 0)
     <> "Good Morning, X!"
  /\ DateTimeService.getGreetingMessage (rt := Scenario.newYorkWinter)
       Scenario.inCityX (Scenario.localInstant 2025 12 22 20 59 59)
     = "Good Evening X!"
  /\ DateTimeService.getGreetingMessage (rt := Scenario.newYorkWinter)
       Scenario.inCityX (Scenario.localInstant 2025 12 22 4 59 59)
     = "Night Owl in X!"
  /\ DateTimeService.getGreetingMessage (rt := Scenario.newYorkWinter)
       Scenario.inCityX (Scenario.localInstant 2025 12 22 21 0 0)
     = "Night Owl in X!".
Proof.
  split; [reflexivity|]. split.
  - apply (proj1 (C7_greeting_text Scenario.newYorkWinter Scenario.inCityX
                    (Scenario.localInstant 2025 12 22 5 0 0))).
    vm_compute. split; [discriminate | reflexivity].
  - repeat split; reflexivity.
Defined.

(** * Further properties of the code *)

(** ** The calendar *)

Lemma in_countFrom (n : nat) :
  forall start x : Z,
    start <= x < start + Z.of_nat n -> In x (Calendar.countFrom start n).
Proof.
  induction n as [|n IH]; intros start x Hx; [lia|].
  cbn [Calendar.countFrom].
  destruct (Z.eq_dec start x) as [->|Hneq]; [now left|].
  right. apply IH. lia.
Qed.

Lemma daysOfEra_round_trip :
  forallb Calendar.roundTrips Calendar.daysOfEra = true.
Proof. vm_compute. reflexivity. Qed.

Lemma roundTrips_in_era (doe : Z) :
  0 <= doe < 146097 -> Calendar.roundTrips doe = true.
Proof.
  intros Hdoe.
  apply (proj1 (forallb_forall _ _) daysOfEra_round_trip).
  unfold Calendar.daysOfEra. apply in_countFrom. rewrite Z2Nat.id; lia.
Qed.

(** The civil date of a day number has a month from 1 to 12 and a day
    from 1 to 31, and [daysFromCivil] leads back to the day number. *)
Lemma civilFromDays_round_trip (days : Z) :
  match JSDate.civilFromDays days with
  | (y, m, d) =>
      JSDate.daysFromCivil y m d = days /\ 1 <= m <= 12 /\ 1 <= d <= 31
  end.
Proof.
  unfold JSDate.civilFromDays.
  set (era := (days + 719468) / 146097).
  set (doe := days + 719468 - era * 146097).
  assert (Hdoe : 0 <= doe < 146097)
    by (subst doe era; Z.div_mod_to_equations; lia).
  pose proof (roundTrips_in_era doe Hdoe) as Hcheck.
  unfold Calendar.roundTrips in Hcheck.
  set (yoe := (doe - doe / 1460 + doe / 36524 - doe / 146096) / 365) in *.
  set (doy := doe - (365 * yoe + yoe / 4 - yoe / 100)) in *.
  set (mp := (5 * doy + 2) / 153) in *.
  set (d := doy - (153 * mp + 2) / 5 + 1) in *.
  set (m := if mp <? 10 then mp + 3 else mp - 9) in *.
  repeat (apply andb_prop in Hcheck; destruct Hcheck as [Hcheck ?]).
  repeat match goal with
         | H : (_ <=? _) = true |- _ => apply Z.leb_le in H
         | H : (_ =? _) = true |- _ => apply Z.eqb_eq in H
         end.
  cbv zeta. split; [|lia].
  unfold JSDate.daysFromCivil.
  assert (Hyear : (if m <=? 2
                   then (if m <=? 2 then yoe + era * 400 + 1
                         else yoe + era * 400) - 1
                   else (if m <=? 2 then yoe + era * 400 + 1
                         else yoe + era * 400)) = yoe + era * 400)
    by (destruct (m <=? 2); lia).
  rewrite Hyear.
  assert (Hera : (yoe + era * 400) / 400 = era)
    by (Z.div_mod_to_equations; lia).
  rewrite Hera.
  replace (yoe + era * 400 - era * 400) with yoe by lia.
  subst doe. lia.
Qed.

Lemma daysFromCivil_day (y m d : Z) :
  JSDate.daysFromCivil y m d = JSDate.daysFromCivil y m 1 + d - 1.
Proof. unfold JSDate.daysFromCivil. lia. Qed.

(** [MakeDay] at the year and month of a time value counts days from
    the first of its month. *)
Lemma MakeDay_of_fields (t date : Z) :
  JSDate.MakeDay (JSDate.YearFromTime t) (JSDate.MonthFromTime t) date
  = JSDate.Day t + (date - JSDate.DateFromTime t).
Proof.
  unfold JSDate.MakeDay, JSDate.YearFromTime, JSDate.MonthFromTime,
    JSDate.DateFromTime.
  pose proof (civilFromDays_round_trip (JSDate.Day t)) as Hcivil.
  destruct (JSDate.civilFromDays (JSDate.Day t)) as [[y m] d].
  cbn [fst snd]. destruct Hcivil as (Hback & Hm & Hd).
  replace ((m - 1) / 12) with 0 by (Z.div_mod_to_equations; lia).
  replace ((m - 1) mod 12 + 1) with m by (Z.div_mod_to_equations; lia).
  rewrite Z.add_0_r. rewrite (daysFromCivil_day y m d) in Hback. lia.
Qed.

Section SteadyCalendar.
Context {rt : Runtime}.
Variable offset : Z.
Hypothesis steady : forall t isUTC, LocalTZA t isUTC = offset.

(** Setting the day of the month, counted from the day of the month
    of a date of the same local day, moves by whole days. *)
Lemma setDate_same_day (d now k : Z) :
  JSDate.Day (d + offset) = JSDate.Day (now + offset) ->
  JSDate.setDate d (JSDate.getDate now + k) = d + k * 86400000.
Proof.
  intros Hday.
  unfold JSDate.setDate, JSDate.getDate, JSDate.UTC, JSDate.LocalTime.
  rewrite !steady. rewrite MakeDay_of_fields.
  unfold JSDate.DateFromTime. rewrite Hday.
  unfold JSDate.MakeDate, JSDate.TimeWithinDay, JSDate.Day, JSDate.msPerDay
    in *.
  Z.div_mod_to_equations. lia.
Qed.

Lemma getDay_range (d : Z) : 0 <= JSDate.getDay d < 7.
Proof.
  unfold JSDate.getDay, JSDate.WeekDay. Z.div_mod_to_equations. lia.
Qed.

Lemma getDay_days_later (d k : Z) :
  JSDate.getDay (d + k * 86400000) = (JSDate.getDay d + k) mod 7.
Proof.
  unfold JSDate.getDay, JSDate.WeekDay, JSDate.LocalTime, JSDate.Day,
    JSDate.msPerDay.
  rewrite !steady. Z.div_mod_to_equations. lia.
Qed.

End SteadyCalendar.


(** ** The dates offered for booking *)

(** X1. On a device whose offset from UTC does not change,
    generateNext30Days returns 30 dates, the i-th exactly i days after
    the current instant: today first, then the same time of day on
    each of the next 29 days, across the ends of months and years,
    the weekday advancing by one each day. *)
Theorem X1_next_30_days_are_consecutive :
  forall (rt : Runtime) (offset today : Z),
    (forall t isUTC, LocalTZA t isUTC = offset) ->
    List.length (DateTimeService.generateNext30Days today) = 30%nat
    /\ forall i : nat,
         (i < 30)%nat ->
         nth_error (DateTimeService.generateNext30Days today) i
         = Some (today + Z.of_nat i * 86400000)
         /\ JSDate.getDay (today + Z.of_nat i * 86400000)
            = (JSDate.getDay today + Z.of_nat i) mod 7.
Proof.
  intros rt offset today Hsteady.
  unfold DateTimeService.generateNext30Days.
  split; [now rewrite length_map, length_seq|].
  intros i Hi. split.
  - rewrite nth_error_map, nth_error_seq.
    destruct (Nat.ltb_spec i 30) as [_|Hge]; [|lia].
    cbn [option_map Nat.add]. f_equal.
    now apply (setDate_same_day offset Hsteady).
  - now apply (getDay_days_later offset Hsteady).
Qed.

(** From Monday 2025-12-22, midnight: the last of the 30 dates is
    Tuesday 2026-01-20, midnight. *)
Lemma X1_thirty_days_from_monday :
  nth_error (DateTimeService.generateNext30Days (rt := Scenario.newYorkWinter)
               Scenario.monday) 29
  = Some (Scenario.localInstant 2026 1 20 0 0 0)
  /\ JSDate.getDay (rt := Scenario.newYorkWinter)
       (Scenario.localInstant 2026 1 20 0 0 0) = 2.
Proof.
  destruct (X1_next_30_days_are_consecutive Scenario.newYorkWinter (-18000000)
              Scenario.monday (fun _ _ => eq_refl)) as [_ Hdates].
  destruct (Hdates 29%nat) as [Hnth Hday].
  - apply Nat.ltb_lt. reflexivity.
  - split; [exact Hnth | reflexivity].
Defined.

(** ** The next opening *)

Lemma checkNextDays_found {rt : Runtime} (storeConfig : StoreConfig.t)
  (now : Z) (remaining : nat) :
  forall (i : Z) (opening : NotificationService.StoreOpeningTime.t),
    NotificationService.checkNextDays storeConfig now i remaining
    = Some opening ->
    1 <= NotificationService.StoreOpeningTime.dayOfWeek opening <= 7
    /\ exists h,
         In h (StoreConfig.hours storeConfig)
         /\ StoreHours.dayOfWeek h
            = NotificationService.StoreOpeningTime.dayOfWeek opening
         /\ StoreHours.openTime h
            = NotificationService.StoreOpeningTime.openTime opening
         /\ StoreHours.closeTime h
            = NotificationService.StoreOpeningTime.closeTime opening.
Proof.
  induction remaining as [|remaining IH]; intros i opening Hfound;
    [discriminate|].
  cbn [NotificationService.checkNextDays] in Hfound.
  set (future := JSDate.setDate now (JSDate.getDate now + i)) in *.
  pose proof (getDay_range future) as Hrange. clearbody future.
  destruct (find _ (StoreConfig.hours storeConfig)) as [h|] eqn:Hfind.
  - injection Hfound as <-. apply find_some in Hfind.
    destruct Hfind as [Hin Hday]. apply Z.eqb_eq in Hday.
    cbn [NotificationService.ofHours
         NotificationService.StoreOpeningTime.dayOfWeek
         NotificationService.StoreOpeningTime.openTime
         NotificationService.StoreOpeningTime.closeTime].
    split.
    + set (day := JSDate.getDay future) in *. clearbody day.
      destruct (Z.eqb_spec day 0); lia.
    + exists h. repeat split; assumption.
  - now apply (IH (i + 1)).
Qed.

Lemma getNextStoreOpeningTime_found :
  forall (rt : Runtime) (storeConfig : StoreConfig.t) (now : Z)
         (opening : NotificationService.StoreOpeningTime.t),
    NotificationService.getNextStoreOpeningTime storeConfig now
    = Some opening ->
    1 <= NotificationService.StoreOpeningTime.dayOfWeek opening <= 7
    /\ exists h,
         In h (StoreConfig.hours storeConfig)
         /\ StoreHours.dayOfWeek h
            = NotificationService.StoreOpeningTime.dayOfWeek opening
         /\ StoreHours.openTime h
            = NotificationService.StoreOpeningTime.openTime opening
         /\ StoreHours.closeTime h
            = NotificationService.StoreOpeningTime.closeTime opening.
Proof.
  intros rt storeConfig now opening Hfound.
  unfold NotificationService.getNextStoreOpeningTime in Hfound.
  pose proof (getDay_range now) as Hrange.
  set (today := JSDate.getDay now) in *. clearbody today.
  destruct (find _ (StoreConfig.hours storeConfig)) as [h|] eqn:Hfind.
  - destruct (JS.gtb (StoreHours.openTime h) (JSDate.toTimeStringHM now)).
    + injection Hfound as <-. apply find_some in Hfind.
      destruct Hfind as [Hin Hday]. apply Z.eqb_eq in Hday.
      cbn [NotificationService.ofHours
           NotificationService.StoreOpeningTime.dayOfWeek
           NotificationService.StoreOpeningTime.openTime
           NotificationService.StoreOpeningTime.closeTime].
      split.
      * destruct (Z.eqb_spec today 0); lia.
      * exists h. repeat split; assumption.
    + now apply (checkNextDays_found storeConfig now 7 1).
  - now apply (checkNextDays_found storeConfig now 7 1).
Qed.

(** X2. The opening getNextStoreOpeningTime returns always carries a
    day number from 1 to 7 and the times of a weekly entry stored
    under that same number.  An entry stored under day 0, Sunday in
    the numbering 0-6 of the weekly table, is never returned. *)
Theorem X2_next_opening_day_is_1_to_7 :
  forall (rt : Runtime) (storeConfig : StoreConfig.t) (now : Z)
         (opening : NotificationService.StoreOpeningTime.t),
    NotificationService.getNextStoreOpeningTime storeConfig now
    = Some opening ->
    1 <= NotificationService.StoreOpeningTime.dayOfWeek opening <= 7
    /\ exists h,
         In h (StoreConfig.hours storeConfig)
         /\ StoreHours.dayOfWeek h
            = NotificationService.StoreOpeningTime.dayOfWeek opening
         /\ StoreHours.openTime h
            = NotificationService.StoreOpeningTime.openTime opening
         /\ StoreHours.closeTime h
            = NotificationService.StoreOpeningTime.closeTime opening.
Proof.
  intros rt storeConfig now opening Hfound.
  exact (getNextStoreOpeningTime_found rt storeConfig now opening Hfound).
Qed.

(** With the default configuration on Sunday 2025-12-21 at 07:00 the
    opening found is Monday's, not the Sunday opening at 10:00. *)
Lemma X2_sunday_opening_skipped :
  find (fun h => StoreHours.dayOfWeek h =? 0)
       (StoreConfig.hours DateTimeService.fallbackConfiguration)
  = Some (StoreHours.mk 0 "10:00" "18:00")
  /\ JSDate.getDay (rt := Scenario.newYorkWinter) Scenario.sundayEarly = 0
  /\ exists opening,
       NotificationService.getNextStoreOpeningTime
         (rt := Scenario.newYorkWinter) DateTimeService.fallbackConfiguration
         Scenario.sundayEarly = Some opening
       /\ 1 <= NotificationService.StoreOpeningTime.dayOfWeek opening <= 7.
Proof.
  split; [reflexivity|]. split; [reflexivity|].
  exists (NotificationService.StoreOpeningTime.mk 1 "09:00" "17:00").
  split; [reflexivity|].
  exact (proj1 (X2_next_opening_day_is_1_to_7 Scenario.newYorkWinter
                  DateTimeService.fallbackConfiguration Scenario.sundayEarly
                  (NotificationService.StoreOpeningTime.mk 1 "09:00" "17:00")
                  eq_refl)).
Defined.


Section SteadyFinder.
Context {rt : Runtime}.
Variable offset : Z.
Hypothesis steady : forall t isUTC, LocalTZA t isUTC = offset.

(** When the loop over the coming days finds nothing, the weekly table
    has no entry for the day number of any of them. *)
Lemma checkNextDays_none (storeConfig : StoreConfig.t) (now : Z)
  (remaining : nat) :
  forall i : Z,
    NotificationService.checkNextDays storeConfig now i remaining = None ->
    forall j : Z,
      i <= j < i + Z.of_nat remaining ->
      find (fun h => StoreHours.dayOfWeek h
                     =? (if (JSDate.getDay now + j) mod 7 =? 0 then 7
                         else (JSDate.getDay now + j) mod 7))
           (StoreConfig.hours storeConfig) = None.
Proof.
  induction remaining as [|remaining IH]; intros i Hnone j Hj; [lia|].
  cbn [NotificationService.checkNextDays] in Hnone.
  rewrite (setDate_same_day offset steady now now i eq_refl) in Hnone.
  rewrite (getDay_days_later offset steady) in Hnone.
  destruct (find _ (StoreConfig.hours storeConfig)) as [h|] eqn:Hfind;
    [discriminate|].
  destruct (Z.eq_dec i j) as [<-|Hneq]; [exact Hfind|].
  apply (IH (i + 1) Hnone). lia.
Qed.

Lemma getNextStoreOpeningTime_none (storeConfig : StoreConfig.t) (now : Z) :
  NotificationService.getNextStoreOpeningTime storeConfig now = None <->
  (forall h, In h (StoreConfig.hours storeConfig) ->
             ~ 1 <= StoreHours.dayOfWeek h <= 7).
Proof.
  split.
  - intros Hnone h Hin Hday.
    assert (Hloop : NotificationService.checkNextDays storeConfig now 1 7
                    = None).
    { unfold NotificationService.getNextStoreOpeningTime in Hnone.
      destruct (find _ (StoreConfig.hours storeConfig)) as [h'|];
        [|exact Hnone].
      destruct (JS.gtb _ _); [discriminate | exact Hnone]. }
    pose proof (getDay_range now) as Hrange.
    set (today := JSDate.getDay now) in *.
    set (w := StoreHours.dayOfWeek h) in *.
    pose proof (checkNextDays_none storeConfig now 7 1 Hloop
                  ((w - today - 1) mod 7 + 1)) as Hfind.
    fold today in Hfind.
    assert (Hj : 1 <= (w - today - 1) mod 7 + 1 < 1 + Z.of_nat 7)
      by (clearbody today w; Z.div_mod_to_equations; lia).
    specialize (Hfind Hj).
    apply (find_none _ _ Hfind) in Hin. cbn beta in Hin. fold w in Hin.
    apply Z.eqb_neq in Hin. apply Hin.
    clearbody today w. clear Hfind Hloop Hin Hnone.
    destruct (Z.eqb_spec ((today + ((w - today - 1) mod 7 + 1)) mod 7) 0);
      Z.div_mod_to_equations; lia.
  - intros Hnoentry.
    destruct (NotificationService.getNextStoreOpeningTime storeConfig now)
      as [opening|] eqn:Hfound; [|reflexivity].
    apply getNextStoreOpeningTime_found in Hfound.
    destruct Hfound as [Hday (h & Hin & Hsame & _)].
    exfalso. apply (Hnoentry h Hin). now rewrite Hsame.
Qed.

End SteadyFinder.

(** X3. On a device whose offset from UTC does not change,
    getNextStoreOpeningTime returns null exactly when the weekly table
    has no entry stored under a day number from 1 to 7: today and the
    seven days after it cover every weekday, and nothing else (time
    of day, overrides) can empty the answer. *)
Theorem X3_no_opening_iff_no_entry_1_to_7 :
  forall (rt : Runtime) (offset : Z) (storeConfig : StoreConfig.t) (now : Z),
    (forall t isUTC, LocalTZA t isUTC = offset) ->
    (NotificationService.getNextStoreOpeningTime storeConfig now = None <->
     forall h, In h (StoreConfig.hours storeConfig) ->
               ~ 1 <= StoreHours.dayOfWeek h <= 7).
Proof.
  intros rt offset storeConfig now Hsteady.
  exact (getNextStoreOpeningTime_none offset Hsteady storeConfig now).
Qed.

(** A store open on Sundays only, stored under day 0, has no next
    opening. *)
Lemma X3_sunday_only_has_no_opening :
  NotificationService.getNextStoreOpeningTime (rt := Scenario.newYorkWinter)
    (StoreConfig.mk Scenario.newYork [StoreHours.mk 0 "10:00" "18:00"] [])
    Scenario.mondayMorning = None.
Proof.
  apply (proj2 (X3_no_opening_iff_no_entry_1_to_7 Scenario.newYorkWinter
                  (-18000000)
                  (StoreConfig.mk Scenario.newYork
                     [StoreHours.mk 0 "10:00" "18:00"] [])
                  Scenario.mondayMorning (fun _ _ => eq_refl))).
  intros h [<-|[]]. cbn. lia.
Defined.


(** ** The reminder *)

(** X4. On a device whose offset from UTC does not change, for an
    opening time from 01:00 to 23:59 stored under a day number from 1
    to 7: when one hour before the opening time has already passed
    today, the reminder is set a whole number of days later, from 1 to
    7, at one hour before the opening time, on the next day after
    today whose weekday is the opening's, and so lies in the future. *)
Theorem X4_reminder_moves_to_next_weekday :
  forall (rt : Runtime) (offset now : Z)
         (openingTime : NotificationService.StoreOpeningTime.t)
         (openHour openMinute : Z),
    (forall t isUTC, LocalTZA t isUTC = offset) ->
    JS.NumberAt
      (JS.split ":" (NotificationService.StoreOpeningTime.openTime openingTime))
      0 = Some openHour ->
    JS.NumberAt
      (JS.split ":" (NotificationService.StoreOpeningTime.openTime openingTime))
      1 = Some openMinute ->
    1 <= openHour < 24 ->
    0 <= openMinute < 60 ->
    1 <= NotificationService.StoreOpeningTime.dayOfWeek openingTime <= 7 ->
    JSDate.setHours now (openHour - 1) openMinute 0 0 <= now ->
    exists days reminder,
      NotificationService.calculateNotificationTime now openingTime
      = Some (ValidDate reminder)
      /\ 1 <= days <= 7
      /\ reminder = JSDate.setHours now openHour openMinute 0 0
                    + days * 86400000 - 60 * 60000
      /\ JSDate.getDay reminder
         = NotificationService.StoreOpeningTime.dayOfWeek openingTime mod 7
      /\ now < reminder.
Proof.
  intros rt offset now openingTime openHour openMinute Hsteady Hhour Hminute
    Hoh Hom Hday Hpast.
  unfold NotificationService.calculateNotificationTime.
  rewrite Hhour, Hminute.
  destruct (Z.leb_spec (JSDate.setHours now (openHour - 1) openMinute 0 0) now)
    as [_|Hahead]; [|lia].
  pose proof (getDay_range now) as Hrange.
  pose proof (getDay_days_later offset Hsteady) as Hlater.
  pose proof (setHours_steady offset Hsteady now (openHour - 1) openMinute)
    as Hnotification.
  pose proof (setHours_steady offset Hsteady now openHour openMinute)
    as Hopening.
  assert (Hsame : JSDate.Day (JSDate.setHours now (openHour - 1) openMinute 0 0
                              + offset)
                  = JSDate.Day (now + offset)).
  { rewrite Hnotification. unfold JSDate.Day, JSDate.msPerDay.
    generalize ((now + offset) / 86400000). intros D.
    Z.div_mod_to_equations. lia. }
  pose proof (fun k => setDate_same_day offset Hsteady
                         (JSDate.setHours now (openHour - 1) openMinute 0 0)
                         now k Hsame) as Hset.
  assert (Hweekday : JSDate.getDay
                       (JSDate.setHours now (openHour - 1) openMinute 0 0)
                     = JSDate.getDay now).
  { unfold JSDate.getDay, JSDate.WeekDay, JSDate.LocalTime.
    now rewrite !Hsteady, Hsame. }
  assert (Hnow : now < JSDate.setHours now (openHour - 1) openMinute 0 0
                       + 86400000).
  { rewrite Hnotification. unfold JSDate.Day, JSDate.msPerDay.
    clear Hsame Hset Hweekday Hnotification Hopening Hlater Hpast.
    Z.div_mod_to_equations. lia. }
  assert (Hhourbefore : JSDate.setHours now (openHour - 1) openMinute 0 0
                        = JSDate.setHours now openHour openMinute 0 0
                          - 60 * 60000) by lia.
  set (w := NotificationService.StoreOpeningTime.dayOfWeek openingTime) in *.
  set (today := JSDate.getDay now) in *.
  set (notification := JSDate.setHours now (openHour - 1) openMinute 0 0) in *.
  set (opening := JSDate.setHours now openHour openMinute 0 0) in *.
  clear Hnotification Hopening Hsame.
  rewrite Z.rem_mod_nonneg by (clearbody w today; lia).
  clearbody w today notification opening.
  destruct (Z.eqb_spec ((w - today + 7) mod 7) 0) as [Hzero|Hnonzero].
  - exists 7, (notification + 7 * 86400000).
    rewrite Hset. split; [reflexivity|]. split; [lia|]. split; [lia|].
    split; [|lia].
    rewrite Hlater, Hweekday. clear Hlater Hset.
    Z.div_mod_to_equations. lia.
  - exists ((w - today + 7) mod 7),
      (notification + (w - today + 7) mod 7 * 86400000).
    rewrite Hset. split; [reflexivity|].
    assert (Hdays : 1 <= (w - today + 7) mod 7 <= 7)
      by (clear Hlater Hset; Z.div_mod_to_equations; lia).
    split; [exact Hdays|]. split; [lia|]. split.
    + rewrite Hlater, Hweekday. clear Hlater Hset.
      Z.div_mod_to_equations. lia.
    + clear Hlater Hset. lia.
Qed.

(** On Monday 2025-12-22 at 18:00, for the opening of Monday 09:00:
    the reminder is Monday 2025-12-29 at 08:00. *)
Lemma X4_monday_evening_reminder :
  exists days reminder,
    NotificationService.calculateNotificationTime
      (rt := Scenario.newYorkWinter) Scenario.mondayEvening
      (NotificationService.StoreOpeningTime.mk 1 "09:00" "17:00")
    = Some (ValidDate reminder)
    /\ 1 <= days <= 7
    /\ reminder = Scenario.localInstant 2025 12 22 9 0 0
                  + days * 86400000 - 60 * 60000
    /\ reminder = Scenario.localInstant 2025 12 29 8 0 0.
Proof.
  destruct (X4_reminder_moves_to_next_weekday Scenario.newYorkWinter
              (-18000000) Scenario.mondayEvening
              (NotificationService.StoreOpeningTime.mk 1 "09:00" "17:00")
              9 0 (fun _ _ => eq_refl) eq_refl eq_refl)
    as (days & reminder & Hreminder & Hdays & Hvalue & _).
  - lia.
  - lia.
  - cbn. lia.
  - vm_compute. discriminate.
  - exists days, reminder. split; [exact Hreminder|].
    split; [exact Hdays|]. split; [exact Hvalue|].
    vm_compute in Hreminder. now injection Hreminder as <-.
Defined.


(** X5. While a reminder with the identifier of the app is pending
    and the list of pending requests can be read,
    scheduleStoreOpeningReminder returns at once: it answers with
    undefined, cancels nothing and schedules nothing, whatever the
    configuration and the clock.  So refreshStoreOpeningReminder, run
    after the configuration has changed, leaves the old reminder in
    place. *)
Theorem X5_pending_reminder_is_kept :
  forall (rt : Runtime) (faults : NotificationService.Faults)
         (storeConfig : StoreConfig.t) (nowFinder nowReminder now : Z)
         (centre : list NotificationService.NotificationRequest)
         (pending : NotificationService.NotificationRequest),
    NotificationService.getAllFails faults = false ->
    In pending centre ->
    NotificationService.identifier pending
    = NotificationService.NOTIFICATION_ID ->
    NotificationService.scheduleStoreOpeningReminder faults storeConfig
      nowFinder nowReminder now centre = (None, centre)
    /\ NotificationService.refreshStoreOpeningReminder faults storeConfig
         nowFinder nowReminder now centre = centre.
Proof.
  intros rt faults storeConfig nowFinder nowReminder now centre pending
    Hreadable Hin Hours.
  assert (Hscheduled :
            NotificationService.isStoreOpeningReminderScheduled faults centre
            = true).
  { unfold NotificationService.isStoreOpeningReminderScheduled,
      NotificationService.getScheduledNotifications.
    rewrite Hreadable. apply existsb_exists. exists pending.
    split; [exact Hin|]. unfold NotificationService.isOurs.
    rewrite Hours. apply String.eqb_refl. }
  unfold NotificationService.refreshStoreOpeningReminder,
    NotificationService.scheduleStoreOpeningReminder.
  rewrite Hscheduled. split; reflexivity.
Qed.

(** A reminder pending for 2025-12-22 08:00 stays the only request
    when the reminder is refreshed under a configuration whose next
    opening is Tuesday 00:30. *)
Lemma X5_refresh_keeps_old_reminder :
  NotificationService.refreshStoreOpeningReminder
    (rt := Scenario.newYorkWinter) Scenario.noFaults
    Scenario.tuesdayHalfPastMidnight Scenario.monday Scenario.monday
    Scenario.monday
    [NotificationService.mkRequest "store-opening-reminder"
       (ValidDate (Scenario.localInstant 2025 12 22 8 0 0))]
  = [NotificationService.mkRequest "store-opening-reminder"
       (ValidDate (Scenario.localInstant 2025 12 22 8 0 0))].
Proof.
  apply (X5_pending_reminder_is_kept Scenario.newYorkWinter Scenario.noFaults
           Scenario.tuesdayHalfPastMidnight Scenario.monday Scenario.monday
           Scenario.monday _
           (NotificationService.mkRequest "store-opening-reminder"
              (ValidDate (Scenario.localInstant 2025 12 22 8 0 0))));
    [reflexivity | now left | reflexivity].
Defined.

(** X6. scheduleStoreOpeningReminder answers true only after adding
    one request: it carries the identifier of the app and the time
    calculateNotificationTime computed for the opening found, and that
    time, when it is a valid date, lies more than one minute after the
    clock reading of the function.  With any other answer no request
    is added: the centre is as before, or as before without the
    requests of the app. *)
Theorem X6_reminder_more_than_a_minute_ahead :
  forall (rt : Runtime) (faults : NotificationService.Faults)
         (storeConfig : StoreConfig.t) (nowFinder nowReminder now : Z)
         (centre centre' : list NotificationService.NotificationRequest)
         (answer : option bool),
    NotificationService.scheduleStoreOpeningReminder faults storeConfig
      nowFinder nowReminder now centre = (answer, centre') ->
    (answer = Some true ->
     exists opening date,
       NotificationService.getNextStoreOpeningTime storeConfig nowFinder
       = Some opening
       /\ NotificationService.calculateNotificationTime nowReminder opening
          = Some date
       /\ centre'
          = (NotificationService.cancelStoreOpeningReminder faults centre
             ++ [NotificationService.mkRequest
                   NotificationService.NOTIFICATION_ID date])%list
       /\ forall t, date = ValidDate t -> now + 60000 < t)
    /\ (answer <> Some true ->
        centre' = centre
        \/ centre' = NotificationService.cancelStoreOpeningReminder faults
                       centre).
Proof.
  intros rt faults storeConfig nowFinder nowReminder now centre centre' answer.
  unfold NotificationService.scheduleStoreOpeningReminder.
  destruct (NotificationService.isStoreOpeningReminderScheduled faults centre).
  { intros [= <- <-]. split; [discriminate | now left]. }
  destruct (NotificationService.getNextStoreOpeningTime storeConfig nowFinder)
    as [opening|] eqn:Hopening.
  2: { intros [= <- <-]. split; [discriminate | now right]. }
  destruct (NotificationService.calculateNotificationTime nowReminder opening)
    as [date|] eqn:Hdate.
  2: { intros [= <- <-]. split; [discriminate | now right]. }
  destruct (NotificationService.dateLeb date now).
  { intros [= <- <-]. split; [discriminate | now right]. }
  destruct (NotificationService.dateLeb date (now + 60000)) eqn:Hsoon.
  { intros [= <- <-]. split; [discriminate | now right]. }
  destruct (NotificationService.scheduleFails faults).
  { intros [= <- <-]. split; [discriminate | now right]. }
  intros [= <- <-]. split; [|congruence].
  intros _. exists opening, date.
  split; [reflexivity|]. split; [exact Hdate|]. split; [reflexivity|].
  intros t ->. cbn [NotificationService.dateLeb] in Hsoon.
  apply Z.leb_gt in Hsoon. exact Hsoon.
Qed.

(** At midnight of Monday 2025-12-22, with Monday open from 09:00 and
    nothing pending, the reminder is scheduled for 08:00. *)
Lemma X6_monday_reminder_scheduled :
  NotificationService.scheduleStoreOpeningReminder
    (rt := Scenario.newYorkWinter) Scenario.noFaults Scenario.mondayOnly
    Scenario.monday Scenario.monday Scenario.monday []
  = (Some true,
     [NotificationService.mkRequest "store-opening-reminder"
        (ValidDate (Scenario.localInstant 2025 12 22 8 0 0))])
  /\ Scenario.monday + 60000 < Scenario.localInstant 2025 12 22 8 0 0.
Proof.
  split; [reflexivity|].
  destruct (proj1 (X6_reminder_more_than_a_minute_ahead Scenario.newYorkWinter
                     Scenario.noFaults Scenario.mondayOnly Scenario.monday
                     Scenario.monday Scenario.monday [] _ _ eq_refl) eq_refl)
    as (opening & date & _ & _ & Hcentre & Hahead).
  apply Hahead. injection Hcentre as <-. reflexivity.
Defined.


(** ** Loading the configuration, further *)

(** X7. A request that fails with an [Error] whose message is empty,
    and that is not an abort, is not reported at all: checkAPIHealth
    answers true, getStoreConfig carries no error, and when it is the
    request for the store times initializeStoreConfig installs an
    empty weekly table, a store closed on every day without override,
    in place of the default configuration. *)
Theorem X7_failure_with_empty_message_is_silent :
  forall (rt : Runtime) (st : DateTimeService.State) (name : string)
         (storeOverrides : list APIService.StoreOverride.t),
    name <> "AbortError" ->
    APIService.checkAPIHealth (Throw (ErrorObject name "")) = true
    /\ APIService.getStoreConfig (Throw (ErrorObject name ""))
         (Normal storeOverrides)
       = Normal (APIService.mkResult [] storeOverrides None)
    /\ DateTimeService.initializeStoreConfig st (Throw (ErrorObject name ""))
         (Normal storeOverrides)
       = Normal (DateTimeService.initializedWith st
                   (StoreConfig.mk "America/New_York" []
                      (map APIService.convertStoreOverride storeOverrides)))
    /\ forall date timezone,
         (forall o, In o storeOverrides ->
                    StoreOverride.date (APIService.convertStoreOverride o)
                    <> DateTimeService.formatDateForAPI date timezone) ->
         DateTimeService.isStoreOpen
           (StoreConfig.mk "America/New_York" []
              (map APIService.convertStoreOverride storeOverrides))
           date timezone = false.
Proof.
  intros rt st name storeOverrides Hname.
  apply String.eqb_neq in Hname.
  unfold APIService.checkAPIHealth, APIService.getStoreConfig,
    DateTimeService.initializeStoreConfig, APIService.getStoreConfig,
    APIService.getStoreTimes, APIService.getStoreOverrides,
    APIService.makeRequest.
  rewrite Hname. cbn.
  repeat split.
  intros date timezone Hnone.
  unfold DateTimeService.isStoreOpen. cbn [StoreConfig.overrides StoreConfig.hours find].
  replace (find _ (map APIService.convertStoreOverride storeOverrides))
    with (@None StoreOverride.t); [reflexivity|].
  symmetry. apply find_date_none. intros o Hin.
  apply in_map_iff in Hin. destruct Hin as [record [<- Hin]].
  now apply Hnone.
Qed.

(** A request for the store times failing with [new Error("")]: the
    store is closed on Monday 2025-12-22, which the default
    configuration has open. *)
Lemma X7_silent_failure_closes_monday :
  DateTimeService.initializeStoreConfig DateTimeService.initialState
    (Throw (ErrorObject "Error" "")) (Normal [])
  = Normal (DateTimeService.initializedWith DateTimeService.initialState
              (StoreConfig.mk "America/New_York" [] []))
  /\ DateTimeService.isStoreOpen (rt := Scenario.newYorkWinter)
       (StoreConfig.mk "America/New_York" [] []) Scenario.mondayMorning
       Scenario.newYork = false
  /\ DateTimeService.isStoreOpen (rt := Scenario.newYorkWinter)
       DateTimeService.fallbackConfiguration Scenario.mondayMorning
       Scenario.newYork = true.
Proof.
  destruct (X7_failure_with_empty_message_is_silent Scenario.newYorkWinter
              DateTimeService.initialState "Error" [])
    as (_ & _ & Hinit & Hclosed); [discriminate|].
  split; [exact Hinit|]. split; [|reflexivity].
  apply Hclosed. intros o [].
Defined.

(** X8. After both requests have succeeded, a date without override
    is open exactly when the store-times data holds a record marked
    open for the weekday of the date: records marked closed are
    dropped, and a weekday without record is closed. *)
Theorem X8_weekly_table_from_open_records :
  forall (rt : Runtime) (st st' : DateTimeService.State)
         (storeTimes : list APIService.StoreTime.t)
         (storeOverrides : list APIService.StoreOverride.t)
         (date : Z) (timezone : string),
    DateTimeService.initializeStoreConfig st (Normal storeTimes)
      (Normal storeOverrides) = Normal st' ->
    (forall o, In o storeOverrides ->
               StoreOverride.date (APIService.convertStoreOverride o)
               <> DateTimeService.formatDateForAPI date timezone) ->
    (DateTimeService.isStoreOpen (DateTimeService.STORE_CONFIG st') date
       timezone = true
     <-> exists record,
           In record storeTimes
           /\ APIService.StoreTime.is_open record = true
           /\ APIService.StoreTime.day_of_week record = JSDate.getDay date).
Proof.
  intros rt st st' storeTimes storeOverrides date timezone Hinit Hnone.
  rewrite initializeStoreConfig_fetched in Hinit. injection Hinit as <-.
  cbn [DateTimeService.initializedWith DateTimeService.STORE_CONFIG].
  unfold DateTimeService.isStoreOpen.
  cbn [StoreConfig.overrides StoreConfig.hours].
  replace (find _ (map APIService.convertStoreOverride storeOverrides))
    with (@None StoreOverride.t).
  2: { symmetry. apply find_date_none. intros o Hin.
       apply in_map_iff in Hin. destruct Hin as [record [<- Hin]].
       now apply Hnone. }
  set (day := JSDate.getDay date).
  destruct (find _ (map APIService.convertStoreTime _)) as [h|] eqn:Hfind.
  - split; [intros _|reflexivity].
    apply find_some in Hfind. destruct Hfind as [Hin Hday].
    apply Z.eqb_eq in Hday. apply in_map_iff in Hin.
    destruct Hin as [record [<- Hin]]. apply filter_In in Hin.
    exists record. tauto.
  - split; [discriminate|]. intros [record (Hin & Hopen & Hday)].
    exfalso.
    assert (Hin' : In (APIService.convertStoreTime record)
                      (map APIService.convertStoreTime
                         (filter APIService.StoreTime.is_open storeTimes))).
    { apply in_map. apply filter_In. tauto. }
    apply (find_none _ _ Hfind) in Hin'. cbn in Hin'.
    apply Z.eqb_neq in Hin'. contradiction.
Qed.

(** With Monday marked open and Tuesday marked closed in the data,
    Monday 2025-12-22 is open and Tuesday 2025-12-23 is closed. *)
Lemma X8_closed_record_is_dropped :
  DateTimeService.isStoreOpen (rt := Scenario.newYorkWinter)
    (StoreConfig.mk "America/New_York" [StoreHours.mk 1 "09:00" "17:00"] [])
    Scenario.mondayMorning Scenario.newYork = true
  /\ DateTimeService.isStoreOpen (rt := Scenario.newYorkWinter)
       (StoreConfig.mk "America/New_York" [StoreHours.mk 1 "09:00" "17:00"] [])
       (Scenario.mondayMorning + 86400000) Scenario.newYork = false.
Proof.
  split; [|reflexivity].
  apply (proj2 (X8_weekly_table_from_open_records Scenario.newYorkWinter
                  DateTimeService.initialState
                  (DateTimeService.initializedWith DateTimeService.initialState
                     (StoreConfig.mk "America/New_York"
                        [StoreHours.mk 1 "09:00" "17:00"] []))
                  [Scenario.mondayRecord;
                   APIService.StoreTime.mk "2" 2 false "09:00" "17:00"]
                  [] Scenario.mondayMorning Scenario.newYork eq_refl
                  (fun o (H : In o []) => match H with end))).
  exists Scenario.mondayRecord. split; [now left|]. split; reflexivity.
Defined.


(** ** Overrides and the year *)

Lemma append_same_length (a b x y : string) :
  String.length a = String.length b -> a ++ x = b ++ y -> a = b.
Proof.
  revert b. induction a as [|c a IH]; intros [|c' b] Hlength Heq;
    try discriminate; [reflexivity|].
  cbn in Hlength, Heq. injection Hlength as Hlength.
  injection Heq as -> Heq. f_equal. now apply IH.
Qed.

Lemma years_checked : forallb Calendar.yearTextChecks Calendar.years = true.
Proof. vm_compute. reflexivity. Qed.

(** A year from 0 to 9999 is written with four characters, which are
    "2025" for the year 2025 only. *)
Lemma yearText_2025 (year : Z) :
  0 <= year <= 9999 ->
  String.length (Calendar.yearText year) = 4%nat
  /\ (Calendar.yearText year = "2025" <-> year = 2025).
Proof.
  intros Hyear.
  assert (Hin : In year Calendar.years).
  { unfold Calendar.years. apply in_countFrom. rewrite Z2Nat.id; lia. }
  apply (proj1 (forallb_forall _ _) years_checked) in Hin.
  unfold Calendar.yearTextChecks in Hin.
  apply andb_prop in Hin. destruct Hin as [Hin Hif].
  apply andb_prop in Hin. destruct Hin as [Hlength Honlyif].
  apply Nat.eqb_eq in Hlength. split; [exact Hlength|].
  destruct (String.eqb_spec (Calendar.yearText year) "2025") as [Htext|Htext];
    destruct (Z.eqb_spec year 2025) as [Hy|Hy];
    cbn in Hif, Honlyif; try discriminate; tauto.
Qed.

(** The date of a converted override is written in the year 2025. *)
Lemma converted_override_in_2025 {rt : Runtime}
  (record : APIService.StoreOverride.t) (date : Z) (timezone : string) :
  0 <= JSDate.YearFromTime (JSDate.zoneTime timezone date) <= 9999 ->
  StoreOverride.date (APIService.convertStoreOverride record)
  = DateTimeService.formatDateForAPI date timezone ->
  JSDate.YearFromTime (JSDate.zoneTime timezone date) = 2025.
Proof.
  intros Hyear Hsame.
  destruct (yearText_2025 _ Hyear) as [Hlength Hiff].
  apply Hiff. symmetry.
  unfold DateTimeService.formatDateForAPI, JSDate.toLocaleDateString_enCA,
    APIService.convertStoreOverride in Hsame.
  cbn [StoreOverride.date] in Hsame.
  fold (Calendar.yearText (JSDate.YearFromTime (JSDate.zoneTime timezone date)))
    in Hsame.
  change ("2025-" ++ ?m ++ "-" ++ ?d) with ("2025" ++ ("-" ++ m ++ "-" ++ d))
    in Hsame.
  apply append_same_length in Hsame; [exact Hsame|].
  now rewrite Hlength.
Qed.

(** X9. The overrides that come from the API are all written in the
    year 2025: on a date of any other year (from 0 to 9999) in the
    timezone asked for, they have no effect, and isStoreOpen answers
    as if there were no override at all. *)
Theorem X9_overrides_apply_in_2025_only :
  forall (rt : Runtime) (zone : string) (weekly : list StoreHours.t)
         (storeOverrides : list APIService.StoreOverride.t)
         (date : Z) (timezone : string),
    0 <= JSDate.YearFromTime (JSDate.zoneTime timezone date) <= 9999 ->
    JSDate.YearFromTime (JSDate.zoneTime timezone date) <> 2025 ->
    DateTimeService.isStoreOpen
      (StoreConfig.mk zone weekly
         (map APIService.convertStoreOverride storeOverrides))
      date timezone
    = DateTimeService.isStoreOpen (StoreConfig.mk zone weekly []) date
        timezone.
Proof.
  intros rt zone weekly storeOverrides date timezone Hyear Hnot2025.
  unfold DateTimeService.isStoreOpen.
  cbn [StoreConfig.overrides StoreConfig.hours find].
  replace (find _ (map APIService.convertStoreOverride storeOverrides))
    with (@None StoreOverride.t); [reflexivity|].
  symmetry. apply find_date_none. intros o Hin Hsame.
  apply in_map_iff in Hin. destruct Hin as [record [<- _]].
  apply Hnot2025. exact (converted_override_in_2025 record date timezone
                           Hyear Hsame).
Qed.

(** The record that closes 25 December: 2025-12-25 is closed, and
    Friday 2026-12-25 is open as any Friday. *)
Lemma X9_christmas_2026_is_open :
  DateTimeService.isStoreOpen (rt := Scenario.newYorkWinter)
    (StoreConfig.mk Scenario.newYork
       (StoreConfig.hours DateTimeService.fallbackConfiguration)
       (map APIService.convertStoreOverride [Scenario.christmasRecord]))
    Scenario.christmasNoon Scenario.newYork = false
  /\ DateTimeService.isStoreOpen (rt := Scenario.newYorkWinter)
       (StoreConfig.mk Scenario.newYork
          (StoreConfig.hours DateTimeService.fallbackConfiguration)
          (map APIService.convertStoreOverride [Scenario.christmasRecord]))
       Scenario.nextChristmasNoon Scenario.newYork = true.
Proof.
  split; [reflexivity|].
  rewrite (X9_overrides_apply_in_2025_only Scenario.newYorkWinter
             Scenario.newYork
             (StoreConfig.hours DateTimeService.fallbackConfiguration)
             [Scenario.christmasRecord] Scenario.nextChristmasNoon
             Scenario.newYork).
  - reflexivity.
  - vm_compute. split; discriminate.
  - vm_compute. discriminate.
Defined.

(** X10. With at most one override per date, the record of the API for
    a month and a day decides whether the store is open on that day of
    2025 in the timezone asked for, whatever the weekly table. *)
Theorem X10_override_record_decides_its_day :
  forall (rt : Runtime) (zone : string) (weekly : list StoreHours.t)
         (storeOverrides : list APIService.StoreOverride.t)
         (record : APIService.StoreOverride.t) (date : Z) (timezone : string),
    NoDup (map StoreOverride.date
             (map APIService.convertStoreOverride storeOverrides)) ->
    In record storeOverrides ->
    JSDate.YearFromTime (JSDate.zoneTime timezone date) = 2025 ->
    JSDate.MonthFromTime (JSDate.zoneTime timezone date) + 1
    = APIService.StoreOverride.month record ->
    JSDate.DateFromTime (JSDate.zoneTime timezone date)
    = APIService.StoreOverride.day record ->
    DateTimeService.isStoreOpen
      (StoreConfig.mk zone weekly
         (map APIService.convertStoreOverride storeOverrides))
      date timezone
    = APIService.StoreOverride.is_open record.
Proof.
  intros rt zone weekly storeOverrides record date timezone Hnodup Hin
    Hyear Hmonth Hday.
  assert (Hdate : StoreOverride.date (APIService.convertStoreOverride record)
                  = DateTimeService.formatDateForAPI date timezone).
  { unfold DateTimeService.formatDateForAPI, JSDate.toLocaleDateString_enCA,
      APIService.convertStoreOverride, JSDate.pad2.
    cbn [StoreOverride.date]. rewrite Hyear, Hmonth, Hday. reflexivity. }
  rewrite (isStoreOpen_override _ date timezone
             (APIService.convertStoreOverride record)); [reflexivity|].
  cbn [StoreConfig.overrides]. rewrite <- Hdate.
  apply find_unique_date; [exact Hnodup | now apply in_map].
Qed.

(** The record that closes 25 December, at noon of 2025-12-25. *)
Lemma X10_christmas_record_closes_christmas :
  DateTimeService.isStoreOpen (rt := Scenario.newYorkWinter)
    (StoreConfig.mk Scenario.newYork
       (StoreConfig.hours DateTimeService.fallbackConfiguration)
       (map APIService.convertStoreOverride [Scenario.christmasRecord]))
    Scenario.christmasNoon Scenario.newYork = false.
Proof.
  apply (X10_override_record_decides_its_day Scenario.newYorkWinter
           Scenario.newYork
           (StoreConfig.hours DateTimeService.fallbackConfiguration)
           [Scenario.christmasRecord] Scenario.christmasRecord
           Scenario.christmasNoon Scenario.newYork).
  - repeat constructor. cbn. tauto.
  - now left.
  - reflexivity.
  - reflexivity.
  - reflexivity.
Defined.


(** ** The current time in a timezone *)

Lemma day_without_milliseconds (t : Z) :
  JSDate.Day (t - JSDate.msFromTime t) = JSDate.Day t.
Proof.
  unfold JSDate.Day, JSDate.msFromTime, JSDate.msPerDay, JSDate.msPerSecond.
  Z.div_mod_to_equations. lia.
Qed.

Lemma hour_without_milliseconds (t : Z) :
  JSDate.HourFromTime (t - JSDate.msFromTime t) = JSDate.HourFromTime t.
Proof.
  unfold JSDate.HourFromTime, JSDate.msFromTime, JSDate.msPerHour,
    JSDate.msPerSecond.
  Z.div_mod_to_equations. lia.
Qed.

(** X11. On a device whose offset from UTC does not change and is the
    offset of the timezone asked for, reading the current time back
    through its text changes neither the date nor the weekday:
    getStoreStatus answers what isStoreOpen answers at the current
    instant. *)
Theorem X11_status_on_device_in_the_zone :
  forall (rt : Runtime) (offset : Z) (config : StoreConfig.t) (now : Z)
         (timezone : string),
    (forall t isUTC, LocalTZA t isUTC = offset) ->
    (forall t, ZoneTZA timezone t = offset) ->
    DateTimeService.isOpen
      (DateTimeService.getStoreStatus config now timezone)
    = DateTimeService.isStoreOpen config now timezone.
Proof.
  intros rt offset config now timezone Hlocal Hzone.
  unfold DateTimeService.getStoreStatus. cbn [DateTimeService.isOpen].
  unfold DateTimeService.isStoreOpen, DateTimeService.formatDateForAPI,
    JSDate.toLocaleDateString_enCA, DateTimeService.getCurrentTimeInTimezone,
    JSDate.reparseInZone, JSDate.getDay, JSDate.WeekDay, JSDate.YearFromTime,
    JSDate.MonthFromTime, JSDate.DateFromTime, JSDate.zoneTime, JSDate.UTC,
    JSDate.LocalTime.
  rewrite !Hzone, !Hlocal.
  replace (now + offset - JSDate.msFromTime (now + offset) - offset + offset)
    with (now + offset - JSDate.msFromTime (now + offset)) by lia.
  now rewrite day_without_milliseconds.
Qed.

(** On the New York device, asked for New York, at 23:00 of Monday
    2025-12-22. *)
Lemma X11_status_in_new_york :
  DateTimeService.isOpen
    (DateTimeService.getStoreStatus (rt := Scenario.newYorkWinter)
       Scenario.mondayOnly Scenario.mondayLateEvening Scenario.newYork)
  = DateTimeService.isStoreOpen (rt := Scenario.newYorkWinter)
      Scenario.mondayOnly Scenario.mondayLateEvening Scenario.newYork.
Proof.
  apply (X11_status_on_device_in_the_zone Scenario.newYorkWinter (-18000000));
    intros; reflexivity.
Defined.

(** X12. On a device whose offset from UTC does not change, whatever
    it is, the hour getGreetingMessage reads is the hour of the wall
    clock of the active timezone; two instants with the same hour
    there get the same greeting. *)
Theorem X12_greeting_follows_active_timezone :
  forall (rt : Runtime) (offset : Z) (st : DateTimeService.State) (now : Z),
    (forall t isUTC, LocalTZA t isUTC = offset) ->
    let zone := DateTimeService.getActiveTimezone st in
    JSDate.getHours (DateTimeService.getCurrentTimeInTimezone now zone)
    = JSDate.HourFromTime (JSDate.zoneTime zone now)
    /\ forall later,
         JSDate.HourFromTime (JSDate.zoneTime zone later)
         = JSDate.HourFromTime (JSDate.zoneTime zone now) ->
         DateTimeService.getGreetingMessage st later
         = DateTimeService.getGreetingMessage st now.
Proof.
  intros rt offset st now Hlocal zone.
  assert (Hhour : forall instant,
             JSDate.getHours
               (DateTimeService.getCurrentTimeInTimezone instant zone)
             = JSDate.HourFromTime (JSDate.zoneTime zone instant)).
  { intros instant.
    unfold JSDate.getHours, DateTimeService.getCurrentTimeInTimezone,
      JSDate.reparseInZone, JSDate.UTC, JSDate.LocalTime.
    rewrite !Hlocal.
    replace (JSDate.zoneTime zone instant
             - JSDate.msFromTime (JSDate.zoneTime zone instant)
             - offset + offset)
      with (JSDate.zoneTime zone instant
            - JSDate.msFromTime (JSDate.zoneTime zone instant)) by lia.
    apply hour_without_milliseconds. }
  split; [apply Hhour|].
  intros later Hsame. unfold DateTimeService.getGreetingMessage.
  fold zone. now rewrite !Hhour, Hsame.
Qed.

(** A viewer in Manhattan who switched to the alternative timezone,
    Los Angeles: at 12:00 in New York it is 09:00 there, and the
    greeting is the morning one. *)
Lemma X12_greeting_in_los_angeles :
  DateTimeService.getActiveTimezone (rt := Scenario.newYorkWinter)
    Scenario.newYorkerLookingWest = "America/Los_Angeles"
  /\ JSDate.getHours (rt := Scenario.newYorkWinter)
       (DateTimeService.getCurrentTimeInTimezone (rt := Scenario.newYorkWinter)
          Scenario.christmasNoon "America/Los_Angeles")
     = 9
  /\ DateTimeService.getGreetingMessage (rt := Scenario.newYorkWinter)
       Scenario.newYorkerLookingWest Scenario.christmasNoon
     = "Good Morning LA!".
Proof.
  split; [reflexivity|]. split; [|reflexivity].
  exact (proj1 (X12_greeting_follows_active_timezone Scenario.newYorkWinter
                  (-18000000) Scenario.newYorkerLookingWest
                  Scenario.christmasNoon (fun _ _ => eq_refl))).
Defined.


(** ** The slots of a day *)

Lemma slotLoop_slots {rt : Runtime} (dateString timezone : string)
  (closeTime : Z) (fuel : nat) :
  forall (currentTime : Z) (slots : list TimeSlot.t),
    DateTimeService.slotLoop fuel dateString timezone currentTime closeTime
    = Some slots ->
    Forall (fun slot =>
              TimeSlot.id slot = dateString ++ "-" ++ TimeSlot.time slot
              /\ TimeSlot.isAvailable slot = true
              /\ TimeSlot.isSelected slot = false)
           slots.
Proof.
  induction fuel as [|fuel IH]; intros currentTime slots Hloop;
    [discriminate|].
  cbn [DateTimeService.slotLoop] in Hloop.
  destruct (currentTime <? closeTime).
  - destruct (DateTimeService.slotLoop fuel dateString timezone _ closeTime)
      as [rest|] eqn:Hrest; [|discriminate].
    injection Hloop as <-. constructor.
    + repeat split.
    + exact (IH _ rest Hrest).
  - injection Hloop as <-. constructor.
Qed.

Lemma generateTimeSlots_slots :
  forall (rt : Runtime) (fuel : nat) (config : StoreConfig.t) (date : Z)
         (timezone : string) (slots : list TimeSlot.t),
    DateTimeService.generateTimeSlots fuel config date timezone = Some slots ->
    Forall (fun slot =>
              TimeSlot.id slot
              = DateTimeService.formatDateForAPI date timezone ++ "-"
                ++ TimeSlot.time slot
              /\ TimeSlot.isAvailable slot = true
              /\ TimeSlot.isSelected slot = false)
           slots
    /\ (slots <> [] ->
        DateTimeService.isStoreOpen config date timezone = true
        /\ exists storeHours,
             find (fun h => StoreHours.dayOfWeek h =? JSDate.getDay date)
                  (StoreConfig.hours config) = Some storeHours).
Proof.
  intros rt fuel config date timezone slots.
  unfold DateTimeService.generateTimeSlots.
  destruct (DateTimeService.isStoreOpen config date timezone); cbn [negb].
  2: { intros [= <-]. split; [constructor | congruence]. }
  destruct (find _ (StoreConfig.hours config)) as [storeHours|].
  2: { intros [= <-]. split; [constructor | congruence]. }
  destruct (JS.NumberAt _ 0) as [openHour|].
  2: { intros [= <-]. split; [constructor | congruence]. }
  destruct (JS.NumberAt _ 1) as [openMinute|].
  2: { intros [= <-]. split; [constructor | congruence]. }
  destruct (JS.NumberAt _ 0) as [closeHour|].
  2: { intros [= <-]. split; [constructor | congruence]. }
  destruct (JS.NumberAt _ 1) as [closeMinute|].
  2: { intros [= <-]. split; [constructor | congruence]. }
  intros Hloop. split.
  - exact (slotLoop_slots _ _ _ _ _ _ Hloop).
  - intros _. split; [reflexivity|]. now exists storeHours.
Qed.

(** X13. Every slot generateTimeSlots returns has the date text, a
    hyphen and its own time text as id, is available and is not
    selected; and slots come out only for a date isStoreOpen reports
    open and whose weekday has a weekly entry. *)
Theorem X13_slots_as_generated :
  forall (rt : Runtime) (fuel : nat) (config : StoreConfig.t) (date : Z)
         (timezone : string) (slots : list TimeSlot.t),
    DateTimeService.generateTimeSlots fuel config date timezone = Some slots ->
    Forall (fun slot =>
              TimeSlot.id slot
              = DateTimeService.formatDateForAPI date timezone ++ "-"
                ++ TimeSlot.time slot
              /\ TimeSlot.isAvailable slot = true
              /\ TimeSlot.isSelected slot = false)
           slots
    /\ (slots <> [] ->
        DateTimeService.isStoreOpen config date timezone = true
        /\ exists storeHours,
             find (fun h => StoreHours.dayOfWeek h =? JSDate.getDay date)
                  (StoreConfig.hours config) = Some storeHours).
Proof.
  exact generateTimeSlots_slots.
Qed.

(** On Monday 2025-12-22, open 09:00-09:50: the first id. *)
Lemma X13_first_slot_of_monday :
  exists first rest,
    DateTimeService.generateTimeSlots (rt := Scenario.newYorkWinter) 8
      Scenario.mondayFiftyMinutes Scenario.monday Scenario.newYork
    = Some (first :: rest)
    /\ TimeSlot.id first = "2025-12-22-09:00"
    /\ TimeSlot.isAvailable first = true
    /\ TimeSlot.isSelected first = false.
Proof.
  exists (DateTimeService.slotAt (rt := Scenario.newYorkWinter) "2025-12-22"
            Scenario.newYork (Scenario.localInstant 2025 12 22 9 0 0)).
  exists (map (DateTimeService.slotAt (rt := Scenario.newYorkWinter)
                 "2025-12-22" Scenario.newYork)
              (Spec.quarterHours (Scenario.localInstant 2025 12 22 9 15 0) 3)).
  assert (Hslots :
            DateTimeService.generateTimeSlots (rt := Scenario.newYorkWinter) 8
              Scenario.mondayFiftyMinutes Scenario.monday Scenario.newYork
            = Some
                (DateTimeService.slotAt (rt := Scenario.newYorkWinter)
                   "2025-12-22" Scenario.newYork
                   (Scenario.localInstant 2025 12 22 9 0 0)
                 :: map (DateTimeService.slotAt (rt := Scenario.newYorkWinter)
                           "2025-12-22" Scenario.newYork)
                        (Spec.quarterHours
                           (Scenario.localInstant 2025 12 22 9 15 0) 3)))
    by (vm_compute; reflexivity).
  split; [exact Hslots|].
  pose proof (proj1 (X13_slots_as_generated Scenario.newYorkWinter 8
                       Scenario.mondayFiftyMinutes Scenario.monday
                       Scenario.newYork _ Hslots)) as Hall.
  apply Forall_inv in Hall. destruct Hall as (_ & Havailable & Hselected).
  split; [vm_compute; reflexivity|]. split; assumption.
Defined.

Lemma minutes_read_back :
  forallb Calendar.readsBack Calendar.minutesOfDay = true.
Proof. vm_compute. reflexivity. Qed.

(** The text "HH:MM" of a minute of the day reads back, through
    [split(':')] and [Number], as its hour and minute. *)
Lemma clockText_reads_back (minuteOfDay : Z) :
  0 <= minuteOfDay < 1440 ->
  JS.NumberAt (JS.split ":" (Calendar.clockText minuteOfDay)) 0
  = Some (minuteOfDay / 60)
  /\ JS.NumberAt (JS.split ":" (Calendar.clockText minuteOfDay)) 1
     = Some (minuteOfDay mod 60).
Proof.
  intros Hminute.
  assert (Hin : In minuteOfDay Calendar.minutesOfDay).
  { unfold Calendar.minutesOfDay. apply in_countFrom. lia. }
  apply (proj1 (forallb_forall _ _) minutes_read_back) in Hin.
  unfold Calendar.readsBack in Hin.
  destruct (JS.NumberAt _ 0) as [h|]; [|discriminate].
  destruct (JS.NumberAt _ 1) as [m|]; [|discriminate].
  apply andb_prop in Hin. destruct Hin as [Hh Hm].
  apply Z.eqb_eq in Hh, Hm. now subst.
Qed.

Lemma clockText_injective (a b : Z) :
  0 <= a < 1440 -> 0 <= b < 1440 ->
  Calendar.clockText a = Calendar.clockText b -> a = b.
Proof.
  intros Ha Hb Heq.
  destruct (clockText_reads_back a Ha) as [Hha Hma].
  destruct (clockText_reads_back b Hb) as [Hhb Hmb].
  rewrite Heq in Hha, Hma. rewrite Hha in Hhb. rewrite Hma in Hmb.
  injection Hhb as Hh. injection Hmb as Hm.
  Z.div_mod_to_equations. lia.
Qed.

Lemma append_cancel_left (prefix a b : string) :
  prefix ++ a = prefix ++ b -> a = b.
Proof.
  induction prefix as [|c prefix IH]; cbn; intros Heq; [exact Heq|].
  injection Heq as Heq. now apply IH.
Qed.

Section SteadySlots.
Context {rt : Runtime}.
Variable offset : Z.
Hypothesis steady : forall t isUTC, LocalTZA t isUTC = offset.

(** The local "HH:MM" of an instant some minutes after midnight of the
    local day of [d]. *)
Lemma toTimeStringHM_minutes (d hour min k : Z) :
  0 <= hour * 60 + min + 15 * k < 1440 ->
  JSDate.toTimeStringHM (JSDate.setHours d hour min 0 0 + 900000 * k)
  = Calendar.clockText (hour * 60 + min + 15 * k).
Proof.
  intros Hminute. unfold JSDate.toTimeStringHM, JSDate.LocalTime.
  rewrite steady, (setHours_steady offset steady).
  unfold Calendar.clockText.
  set (D := JSDate.Day (d + offset)). clearbody D.
  replace (JSDate.HourFromTime _) with ((hour * 60 + min + 15 * k) / 60).
  - replace (JSDate.MinFromTime _) with ((hour * 60 + min + 15 * k) mod 60);
      [reflexivity|].
    unfold JSDate.MinFromTime, JSDate.msPerMinute.
    Z.div_mod_to_equations. lia.
  - unfold JSDate.HourFromTime, JSDate.msPerHour.
    Z.div_mod_to_equations. lia.
Qed.

End SteadySlots.


(** The k-th quarter hour of a window that ends by midnight lies in
    the window. *)
Lemma quarter_in_window (openHour openMinute closeHour closeMinute : Z)
  (k : nat) :
  0 <= openHour -> 0 <= openMinute ->
  closeHour * 60 + closeMinute <= 1440 ->
  (k < Z.to_nat ((Spec.windowMinutes openHour openMinute closeHour closeMinute
                  + 14) / 15))%nat ->
  openHour * 60 + openMinute
  <= openHour * 60 + openMinute + 15 * Z.of_nat k
  < closeHour * 60 + closeMinute.
Proof.
  unfold Spec.windowMinutes. intros Hoh Hom Hclose Hk.
  assert (Hq : Z.of_nat k
               < (closeHour * 60 + closeMinute
                  - (openHour * 60 + openMinute) + 14) / 15) by lia.
  clear Hk. Z.div_mod_to_equations. lia.
Qed.

(** X14. On a device whose offset from UTC does not change, for an
    open day whose weekly window starts at or after 00:00 and ends by
    24:00: the time text of every slot reads back, through split(':')
    and Number as the code itself parses times, as an hour and a
    minute of the day that lie in the window, from the opening time
    on and before the closing time, a multiple of 15 minutes after
    the opening time. *)
Theorem X14_slot_times_read_back_inside_window :
  forall (rt : Runtime) (offset : Z) (config : StoreConfig.t) (date : Z)
         (timezone : string) (storeHours : StoreHours.t)
         (openHour openMinute closeHour closeMinute : Z) (fuel : nat),
    (forall t isUTC, LocalTZA t isUTC = offset) ->
    DateTimeService.isStoreOpen config date timezone = true ->
    find (fun h => StoreHours.dayOfWeek h =? JSDate.getDay date)
         (StoreConfig.hours config) = Some storeHours ->
    JS.NumberAt (JS.split ":" (StoreHours.openTime storeHours)) 0
      = Some openHour ->
    JS.NumberAt (JS.split ":" (StoreHours.openTime storeHours)) 1
      = Some openMinute ->
    JS.NumberAt (JS.split ":" (StoreHours.closeTime storeHours)) 0
      = Some closeHour ->
    JS.NumberAt (JS.split ":" (StoreHours.closeTime storeHours)) 1
      = Some closeMinute ->
    0 <= openHour -> 0 <= openMinute ->
    closeHour * 60 + closeMinute <= 1440 ->
    (Z.to_nat ((Spec.windowMinutes openHour openMinute closeHour closeMinute
                + 14) / 15) < fuel)%nat ->
    exists slots,
      DateTimeService.generateTimeSlots fuel config date timezone = Some slots
      /\ Forall
           (fun slot =>
              exists hour minute,
                JS.NumberAt (JS.split ":" (TimeSlot.time slot)) 0 = Some hour
                /\ JS.NumberAt (JS.split ":" (TimeSlot.time slot)) 1
                   = Some minute
                /\ 0 <= minute < 60
                /\ openHour * 60 + openMinute <= hour * 60 + minute
                   < closeHour * 60 + closeMinute
                /\ (hour * 60 + minute - (openHour * 60 + openMinute)) mod 15
                   = 0)
           slots.
Proof.
  intros rt offset config date timezone storeHours openHour openMinute
    closeHour closeMinute fuel Hsteady Hopen Hfind Hoh Hom Hch Hcm
    Hhour Hminute Hclose Hfuel.
  eexists. split.
  { exact (generateTimeSlots_steady offset Hsteady config date timezone
             storeHours openHour openMinute closeHour closeMinute fuel
             Hopen Hfind Hoh Hom Hch Hcm Hfuel). }
  apply Forall_forall. intros slot Hin.
  apply in_map_iff in Hin. destruct Hin as [start [<- Hin]].
  unfold Spec.quarterHours in Hin. apply in_map_iff in Hin.
  destruct Hin as [k [<- Hk]]. apply in_seq in Hk.
  pose proof (quarter_in_window openHour openMinute closeHour closeMinute k
                Hhour Hminute Hclose (proj2 Hk)) as Hwindow.
  cbn [DateTimeService.slotAt TimeSlot.time].
  rewrite (toTimeStringHM_minutes offset Hsteady) by lia.
  set (minuteOfDay := openHour * 60 + openMinute + 15 * Z.of_nat k) in *.
  destruct (clockText_reads_back minuteOfDay) as [Hh Hm]; [lia|].
  exists (minuteOfDay / 60), (minuteOfDay mod 60).
  split; [exact Hh|]. split; [exact Hm|].
  assert (Hsum : minuteOfDay / 60 * 60 + minuteOfDay mod 60 = minuteOfDay)
    by (clearbody minuteOfDay; Z.div_mod_to_equations; lia).
  rewrite Hsum. split.
  { clearbody minuteOfDay. Z.div_mod_to_equations. lia. }
  split; [lia|].
  subst minuteOfDay.
  replace (openHour * 60 + openMinute + 15 * Z.of_nat k
           - (openHour * 60 + openMinute)) with (Z.of_nat k * 15) by lia.
  apply Z.mod_mul. lia.
Qed.

(** On Monday 2025-12-22, open 09:00-09:50, the last slot reads back
    as 09:45. *)
Lemma X14_last_slot_of_fifty_minutes :
  exists slots last,
    DateTimeService.generateTimeSlots (rt := Scenario.newYorkWinter) 8
      Scenario.mondayFiftyMinutes Scenario.monday Scenario.newYork
    = Some slots
    /\ nth_error slots 3 = Some last
    /\ JS.NumberAt (JS.split ":" (TimeSlot.time last)) 0 = Some 9
    /\ JS.NumberAt (JS.split ":" (TimeSlot.time last)) 1 = Some 45.
Proof.
  destruct (X14_slot_times_read_back_inside_window Scenario.newYorkWinter
              (-18000000) Scenario.mondayFiftyMinutes Scenario.monday
              Scenario.newYork (StoreHours.mk 1 "09:00" "09:50") 9 0 9 50 8
              (fun _ _ => eq_refl) eq_refl eq_refl eq_refl eq_refl eq_refl
              eq_refl)
    as [slots [Hslots _]].
  - lia.
  - lia.
  - lia.
  - apply Nat.ltb_lt. reflexivity.
  - exists slots.
    exists (DateTimeService.slotAt (rt := Scenario.newYorkWinter)
              "2025-12-22" Scenario.newYork
              (Scenario.localInstant 2025 12 22 9 45 0)).
    split; [exact Hslots|].
    vm_compute in Hslots. injection Hslots as <-.
    repeat split; vm_compute; reflexivity.
Defined.

(** X15. Under the same conditions the ids of the slots of one call
    are pairwise distinct, and so are their time texts. *)
Theorem X15_slot_ids_are_distinct :
  forall (rt : Runtime) (offset : Z) (config : StoreConfig.t) (date : Z)
         (timezone : string) (storeHours : StoreHours.t)
         (openHour openMinute closeHour closeMinute : Z) (fuel : nat),
    (forall t isUTC, LocalTZA t isUTC = offset) ->
    DateTimeService.isStoreOpen config date timezone = true ->
    find (fun h => StoreHours.dayOfWeek h =? JSDate.getDay date)
         (StoreConfig.hours config) = Some storeHours ->
    JS.NumberAt (JS.split ":" (StoreHours.openTime storeHours)) 0
      = Some openHour ->
    JS.NumberAt (JS.split ":" (StoreHours.openTime storeHours)) 1
      = Some openMinute ->
    JS.NumberAt (JS.split ":" (StoreHours.closeTime storeHours)) 0
      = Some closeHour ->
    JS.NumberAt (JS.split ":" (StoreHours.closeTime storeHours)) 1
      = Some closeMinute ->
    0 <= openHour -> 0 <= openMinute ->
    closeHour * 60 + closeMinute <= 1440 ->
    (Z.to_nat ((Spec.windowMinutes openHour openMinute closeHour closeMinute
                + 14) / 15) < fuel)%nat ->
    exists slots,
      DateTimeService.generateTimeSlots fuel config date timezone = Some slots
      /\ NoDup (map TimeSlot.id slots)
      /\ NoDup (map TimeSlot.time slots).
Proof.
  intros rt offset config date timezone storeHours openHour openMinute
    closeHour closeMinute fuel Hsteady Hopen Hfind Hoh Hom Hch Hcm
    Hhour Hminute Hclose Hfuel.
  eexists. split.
  { exact (generateTimeSlots_steady offset Hsteady config date timezone
             storeHours openHour openMinute closeHour closeMinute fuel
             Hopen Hfind Hoh Hom Hch Hcm Hfuel). }
  set (n := Z.to_nat ((Spec.windowMinutes openHour openMinute closeHour
                         closeMinute + 14) / 15)).
  set (dateString := DateTimeService.formatDateForAPI date timezone).
  set (openTime := JSDate.setHours date openHour openMinute 0 0).
  assert (Hdistinct :
            forall k1 k2 : nat,
              In k1 (seq 0 n) -> In k2 (seq 0 n) ->
              JSDate.toTimeStringHM (openTime + 900000 * Z.of_nat k1)
              = JSDate.toTimeStringHM (openTime + 900000 * Z.of_nat k2) ->
              k1 = k2).
  { intros k1 k2 Hk1 Hk2 Hsame. apply in_seq in Hk1, Hk2.
    pose proof (quarter_in_window openHour openMinute closeHour closeMinute
                  k1 Hhour Hminute Hclose (proj2 Hk1)) as Hw1.
    pose proof (quarter_in_window openHour openMinute closeHour closeMinute
                  k2 Hhour Hminute Hclose (proj2 Hk2)) as Hw2.
    unfold openTime in Hsame.
    rewrite !(toTimeStringHM_minutes offset Hsteady) in Hsame by lia.
    apply clockText_injective in Hsame; lia. }
  unfold Spec.quarterHours. rewrite !map_map. split.
  - apply NoDup_map_NoDup_ForallPairs; [|apply seq_NoDup].
    intros k1 k2 Hk1 Hk2 Hsame.
    cbn [DateTimeService.slotAt TimeSlot.id] in Hsame.
    apply append_cancel_left in Hsame. apply append_cancel_left in Hsame.
    now apply Hdistinct.
  - apply NoDup_map_NoDup_ForallPairs; [|apply seq_NoDup].
    intros k1 k2 Hk1 Hk2 Hsame.
    cbn [DateTimeService.slotAt TimeSlot.time] in Hsame.
    now apply Hdistinct.
Qed.

(** The 32 slots of Monday 2025-12-22, open 09:00-17:00, have 32
    distinct ids. *)
Lemma X15_monday_ids_distinct :
  exists slots,
    DateTimeService.generateTimeSlots (rt := Scenario.newYorkWinter) 40
      Scenario.mondayOnly Scenario.monday Scenario.newYork = Some slots
    /\ List.length slots = 32%nat
    /\ NoDup (map TimeSlot.id slots).
Proof.
  destruct (X15_slot_ids_are_distinct Scenario.newYorkWinter (-18000000)
              Scenario.mondayOnly Scenario.monday Scenario.newYork
              (StoreHours.mk 1 "09:00" "17:00") 9 0 17 0 40
              (fun _ _ => eq_refl) eq_refl eq_refl eq_refl eq_refl eq_refl
              eq_refl)
    as [slots (Hslots & Hids & _)].
  - lia.
  - lia.
  - lia.
  - apply Nat.ltb_lt. reflexivity.
  - exists slots. split; [exact Hslots|]. split; [|exact Hids].
    vm_compute in Hslots. injection Hslots as <-. reflexivity.
Defined.


(** ** Picking a slot *)

Lemma find_selected_after_select (timeSlots : list TimeSlot.t)
  (slot : TimeSlot.t) :
  NoDup (map TimeSlot.id timeSlots) ->
  In slot timeSlots ->
  find TimeSlot.isSelected (DatePicker.handleTimeSlotSelect timeSlots slot)
  = Some (TimeSlot.mk (TimeSlot.id slot) (TimeSlot.time slot)
            (TimeSlot.displayTime slot) (TimeSlot.isAvailable slot) true).
Proof.
  unfold DatePicker.handleTimeSlotSelect.
  induction timeSlots as [|s rest IH]; intros Hnodup Hin; [contradiction|].
  cbn [map] in Hnodup. inversion Hnodup as [|? ? Hfresh Hrest]; subst.
  cbn [map find TimeSlot.isSelected].
  destruct Hin as [->|Hin].
  - now rewrite String.eqb_refl.
  - destruct (String.eqb_spec (TimeSlot.id s) (TimeSlot.id slot)) as [Heq|_].
    + exfalso. apply Hfresh. rewrite Heq. now apply in_map.
    + now apply IH.
Qed.

(** X16. In a list of slots with distinct ids, picking one of them
    marks that slot and no other as selected, and leaves everything
    else of every slot as it was; confirming then stores the date and
    that slot, marked selected, as the selection. *)
Theorem X16_pick_then_confirm :
  forall (st : DateTimeService.State) (date : Z)
         (timeSlots : list TimeSlot.t) (slot : TimeSlot.t),
    NoDup (map TimeSlot.id timeSlots) ->
    In slot timeSlots ->
    let picked := DatePicker.handleTimeSlotSelect timeSlots slot in
    map TimeSlot.id picked = map TimeSlot.id timeSlots
    /\ map TimeSlot.time picked = map TimeSlot.time timeSlots
    /\ (forall s, In s picked ->
                  (TimeSlot.isSelected s = true
                   <-> TimeSlot.id s = TimeSlot.id slot))
    /\ List.length (filter TimeSlot.isSelected picked) = 1%nat
    /\ exists st',
         DatePicker.handleConfirm st (Some date) picked = Some st'
         /\ DateTimeService.selectedDate st' = Some date
         /\ DateTimeService.selectedTimeSlot st'
            = Some (TimeSlot.mk (TimeSlot.id slot) (TimeSlot.time slot)
                      (TimeSlot.displayTime slot) (TimeSlot.isAvailable slot)
                      true)
         /\ DateTimeService.STORE_CONFIG st' = DateTimeService.STORE_CONFIG st.
Proof.
  intros st date timeSlots slot Hnodup Hin picked.
  pose proof (find_selected_after_select timeSlots slot Hnodup Hin) as Hfind.
  split; [|split; [|split; [|split]]].
  - unfold picked, DatePicker.handleTimeSlotSelect. rewrite map_map.
    now apply map_ext.
  - unfold picked, DatePicker.handleTimeSlotSelect. rewrite map_map.
    now apply map_ext.
  - intros s Hs. unfold picked, DatePicker.handleTimeSlotSelect in Hs.
    apply in_map_iff in Hs. destruct Hs as [s0 [<- _]].
    cbn [TimeSlot.isSelected TimeSlot.id]. apply String.eqb_eq.
  - unfold picked, DatePicker.handleTimeSlotSelect. clear Hfind picked.
    induction timeSlots as [|s rest IH]; [contradiction|].
    cbn [map] in Hnodup. inversion Hnodup as [|? ? Hfresh Hrest]; subst.
    cbn [map filter TimeSlot.isSelected].
    destruct Hin as [->|Hin].
    + rewrite String.eqb_refl. cbn [List.length]. f_equal.
      clear IH Hrest Hnodup.
      induction rest as [|r rest IH]; [reflexivity|].
      cbn [map filter TimeSlot.isSelected].
      destruct (String.eqb_spec (TimeSlot.id r) (TimeSlot.id slot)) as [Heq|_].
      * exfalso. apply Hfresh. cbn [map]. left. exact Heq.
      * apply IH. intros Hin. apply Hfresh. cbn [map]. now right.
    + destruct (String.eqb_spec (TimeSlot.id s) (TimeSlot.id slot)) as [Heq|_].
      * exfalso. apply Hfresh. rewrite Heq. now apply in_map.
      * now apply IH.
  - unfold DatePicker.handleConfirm. fold picked in Hfind.
    assert (Hsome : existsb TimeSlot.isSelected picked = true).
    { apply existsb_exists. apply find_some in Hfind. eexists. exact Hfind. }
    rewrite Hsome, Hfind. eexists. split; [reflexivity|].
    repeat split.
Qed.

(** Picking 09:15 among the slots of Monday 2025-12-22, open
    09:00-09:50, and confirming. *)
Lemma X16_pick_quarter_past_nine :
  exists st',
    DatePicker.handleConfirm DateTimeService.initialState
      (Some Scenario.monday)
      (DatePicker.handleTimeSlotSelect
         (map (DateTimeService.slotAt (rt := Scenario.newYorkWinter)
                 "2025-12-22" Scenario.newYork)
              (Spec.quarterHours (Scenario.localInstant 2025 12 22 9 0 0) 4))
         (DateTimeService.slotAt (rt := Scenario.newYorkWinter) "2025-12-22"
            Scenario.newYork (Scenario.localInstant 2025 12 22 9 15 0)))
    = Some st'
    /\ DateTimeService.selectedTimeSlot st'
       = Some (TimeSlot.mk "2025-12-22-09:15" "09:15" "9:15 AM" true true).
Proof.
  destruct (X16_pick_then_confirm DateTimeService.initialState Scenario.monday
              (map (DateTimeService.slotAt (rt := Scenario.newYorkWinter)
                      "2025-12-22" Scenario.newYork)
                   (Spec.quarterHours (Scenario.localInstant 2025 12 22 9 0 0)
                      4))
              (DateTimeService.slotAt (rt := Scenario.newYorkWinter)
                 "2025-12-22" Scenario.newYork
                 (Scenario.localInstant 2025 12 22 9 15 0)))
    as (_ & _ & _ & _ & st' & Hconfirm & _ & Hslot & _).
  - vm_compute. repeat constructor; cbn; intuition discriminate.
  - vm_compute. right. left. reflexivity.
  - exists st'. split; [exact Hconfirm|]. rewrite Hslot.
    vm_compute. reflexivity.
Defined.

(** X17. Confirming without having picked does nothing: when no slot
    of the list is selected, as in every list generateTimeSlots
    returns, handleConfirm stores nothing, with or without a date. *)
Theorem X17_confirm_without_pick_does_nothing :
  forall (rt : Runtime) (st : DateTimeService.State) (fuel : nat)
         (config : StoreConfig.t) (date : Z) (timezone : string)
         (slots : list TimeSlot.t) (selectedDate : option Z),
    DateTimeService.generateTimeSlots fuel config date timezone = Some slots ->
    DatePicker.handleConfirm st selectedDate slots = None.
Proof.
  intros rt st fuel config date timezone slots selectedDate Hslots.
  assert (Hnone : existsb TimeSlot.isSelected slots = false).
  { pose proof (proj1 (generateTimeSlots_slots rt fuel config date timezone
                         slots Hslots)) as Hall.
    clear Hslots.
    induction Hall as [|s rest (_ & _ & Hs) _ IH]; [reflexivity|].
    cbn [existsb]. rewrite Hs. exact IH. }
  unfold DatePicker.handleConfirm. destruct selectedDate; [|reflexivity].
  now rewrite Hnone.
Qed.

(** The slots of Monday 2025-12-22 as generated, confirmed at once. *)
Lemma X17_confirm_fresh_slots :
  DatePicker.handleConfirm DateTimeService.initialState
    (Some Scenario.monday)
    (map (DateTimeService.slotAt (rt := Scenario.newYorkWinter) "2025-12-22"
            Scenario.newYork)
         (Spec.quarterHours (Scenario.localInstant 2025 12 22 9 0 0) 4))
  = None.
Proof.
  apply (X17_confirm_without_pick_does_nothing Scenario.newYorkWinter
           DateTimeService.initialState 8 Scenario.mondayFiftyMinutes
           Scenario.monday Scenario.newYork).
  vm_compute. reflexivity.
Defined.


(** ** Names shown to the viewer *)

(** X18. The city name of the greeting is never empty, and neither is
    the text formatLocationForDisplay gives for a location, whatever
    fields of the location are empty. *)
Theorem X18_displayed_names_are_not_empty :
  forall (st : DateTimeService.State)
         (location : LocationService.LocationData),
    DateTimeService.getActiveCityName st <> ""
    /\ LocationService.formatLocationForDisplay location <> "".
Proof.
  assert (Hformat : forall location,
             LocationService.formatLocationForDisplay location <> "").
  { intros location. unfold LocationService.formatLocationForDisplay.
    destruct (String.eqb_spec (LocationService.city location) "") as [Hc|Hc];
      destruct (String.eqb_spec (LocationService.region location) "")
        as [Hr|Hr]; cbn [negb andb]; try assumption; try discriminate.
    destruct (LocationService.city location); [contradiction|discriminate]. }
  intros st location. split; [|apply Hformat].
  unfold DateTimeService.getActiveCityName.
  destruct (DateTimeService.useAlternativeTimezone st).
  - unfold LocationService.getAlternativeCityName.
    destruct (DateTimeService.userLocation st) as [l|]; [|discriminate].
    destruct (LocationService.isInNYCArea l); discriminate.
  - destruct (DateTimeService.userLocation st) as [l|]; [|discriminate].
    unfold JS.orElse.
    destruct (String.eqb_spec (LocationService.city l) "") as [_|Hcity];
      [apply Hformat | exact Hcity].
Qed.

(** X19. The alternative offered to a viewer is Los Angeles, shown as
    LA, exactly when the viewer has a location inside the box from
    40.4774 to 40.9176 degrees of latitude and from -74.2591 to
    -73.7004 degrees of longitude, bounds included; for every other
    viewer, and without a location, it is New York, shown as NYC.  The
    name and the timezone always go together. *)
Theorem X19_alternative_city_and_timezone :
  forall location : option LocationService.LocationData,
    let inside :=
      exists l,
        location = Some l
        /\ (404774 # 10000
            <= LocationService.latitude (LocationService.coordinates l)
            <= 409176 # 10000)%Q
        /\ (- (742591 # 10000)
            <= LocationService.longitude (LocationService.coordinates l)
            <= - (737004 # 10000))%Q in
    (inside ->
     LocationService.getAlternativeTimezone location = "America/Los_Angeles"
     /\ LocationService.getAlternativeCityName location = "LA")
    /\ (~ inside ->
        LocationService.getAlternativeTimezone location = "America/New_York"
        /\ LocationService.getAlternativeCityName location = "NYC").
Proof.
  intros location inside.
  assert (Hbox : forall l,
             LocationService.isInNYCArea l = true <->
             (404774 # 10000
              <= LocationService.latitude (LocationService.coordinates l)
              <= 409176 # 10000)%Q
             /\ (- (742591 # 10000)
                 <= LocationService.longitude (LocationService.coordinates l)
                 <= - (737004 # 10000))%Q).
  { intros l. unfold LocationService.isInNYCArea.
    rewrite !andb_true_iff, !Qle_bool_iff.
    unfold LocationService.NYC_south, LocationService.NYC_north,
      LocationService.NYC_west, LocationService.NYC_east. tauto. }
  unfold LocationService.getAlternativeTimezone,
    LocationService.getAlternativeCityName.
  split.
  - intros (l & -> & Hlat & Hlong).
    now rewrite (proj2 (Hbox l) (conj Hlat Hlong)).
  - intros Houtside. destruct location as [l|]; [|split; reflexivity].
    destruct (LocationService.isInNYCArea l) eqn:Harea;
      [|split; reflexivity].
    exfalso. apply Houtside. exists l. split; [reflexivity|].
    now apply Hbox.
Qed.

(** A viewer in Manhattan is offered Los Angeles, a viewer without
    location New York. *)
Lemma X19_manhattan_sees_los_angeles :
  (LocationService.getAlternativeTimezone (Some Scenario.manhattan)
   = "America/Los_Angeles"
   /\ LocationService.getAlternativeCityName (Some Scenario.manhattan) = "LA")
  /\ LocationService.getAlternativeTimezone None = "America/New_York"
  /\ LocationService.getAlternativeCityName None = "NYC".
Proof.
  split.
  - apply (proj1 (X19_alternative_city_and_timezone
                    (Some Scenario.manhattan))).
    exists Scenario.manhattan. split; [reflexivity|].
    cbn. unfold Qle. cbn. lia.
  - apply (proj2 (X19_alternative_city_and_timezone None)).
    intros (l & Hl & _). discriminate Hl.
Defined.

(** ** The display name of a timezone *)

Lemma split_not_empty (c : ascii) (s : string) : JS.split c s <> [].
Proof.
  destruct s as [|x rest]; cbn; [discriminate|].
  destruct (Ascii.eqb x c); [discriminate|].
  destruct (JS.split c rest); discriminate.
Qed.

Lemma pop_cons (piece : string) (pieces : list string) :
  pieces <> [] -> JS.pop (piece :: pieces) = JS.pop pieces.
Proof. destruct pieces; [contradiction | reflexivity]. Qed.

(** After a separator, the last piece is the last piece of the rest. *)
Lemma pop_split_after (c : ascii) (s : string) :
  forall before : string,
    exists piece pieces,
      JS.split c (before ++ String c s) = piece :: pieces
      /\ pieces <> []
      /\ JS.pop pieces = JS.pop (JS.split c s).
Proof.
  induction before as [|x before IH]; cbn [append JS.split].
  - rewrite Ascii.eqb_refl. exists "", (JS.split c s).
    split; [reflexivity|]. split; [apply split_not_empty | reflexivity].
  - destruct IH as (piece & pieces & Hsplit & Hnonempty & Hpop).
    rewrite Hsplit. destruct (Ascii.eqb x c).
    + exists "", (piece :: pieces). split; [reflexivity|].
      split; [discriminate|]. now rewrite pop_cons.
    + exists (String x piece), pieces. now repeat split.
Qed.

Lemma split_single (c x : ascii) (s : string) :
  JS.split c (String x s) = [String x s] ->
  Ascii.eqb x c = false /\ JS.split c s = [s].
Proof.
  cbn [JS.split]. destruct (Ascii.eqb x c).
  - intros Heq. exfalso. injection Heq as _ Heq.
    now apply (split_not_empty c s).
  - destruct (JS.split c s) as [|piece pieces] eqn:Hsplit.
    + now apply split_not_empty in Hsplit.
    + intros [= -> ->]. now split.
Qed.

Lemma replaceFirst_at_first (c : ascii) (by_ b : string) :
  forall a : string,
    JS.split c a = [a] ->
    JS.replaceFirst c by_ (a ++ String c b) = a ++ by_ ++ b.
Proof.
  induction a as [|x a IH]; intros Hsingle; cbn [append JS.replaceFirst].
  - now rewrite Ascii.eqb_refl.
  - apply split_single in Hsingle. destruct Hsingle as [-> Hsingle].
    now rewrite IH.
Qed.

Lemma replaceFirst_absent (c : ascii) (by_ : string) :
  forall a : string, JS.split c a = [a] -> JS.replaceFirst c by_ a = a.
Proof.
  induction a as [|x a IH]; intros Hsingle; cbn [JS.replaceFirst];
    [reflexivity|].
  apply split_single in Hsingle. destruct Hsingle as [-> Hsingle].
  now rewrite IH.
Qed.

(** X20. For a timezone written region/city, getTimezoneDisplayName
    gives the city, the part after the last slash, with its first
    underscore turned into a blank and every further underscore left
    as it is; a city without underscore is given unchanged; and a
    timezone that ends in a slash is given back whole. *)
Theorem X20_display_name_replaces_first_underscore :
  forall region first rest : string,
    JS.split "_" first = [first] ->
    (JS.split "/" (first ++ "_" ++ rest) = [first ++ "_" ++ rest] ->
     DateTimeService.getTimezoneDisplayName
       (region ++ "/" ++ first ++ "_" ++ rest)
     = first ++ " " ++ rest)
    /\ (JS.split "/" first = [first] -> first <> "" ->
        DateTimeService.getTimezoneDisplayName (region ++ "/" ++ first)
        = first)
    /\ DateTimeService.getTimezoneDisplayName (region ++ "/") = region ++ "/".
Proof.
  intros region first rest Hfirst.
  unfold DateTimeService.getTimezoneDisplayName. split; [|split].
  - intros Hcity.
    destruct (pop_split_after "/" (first ++ "_" ++ rest) region)
      as (piece & pieces & Hsplit & Hnonempty & Hpop).
    change (region ++ "/" ++ first ++ "_" ++ rest)
      with (region ++ String "/" (first ++ "_" ++ rest)).
    rewrite Hsplit, (pop_cons _ _ Hnonempty), Hpop, Hcity.
    cbn [JS.pop].
    change (first ++ "_" ++ rest) with (first ++ String "_" rest).
    rewrite (replaceFirst_at_first "_" " " rest first Hfirst).
    unfold JS.orElse.
    destruct (String.eqb_spec (first ++ " " ++ rest) "") as [Hempty|_];
      [|reflexivity].
    exfalso. destruct first; discriminate.
  - intros Hplain Hnonempty.
    destruct (pop_split_after "/" first region)
      as (piece & pieces & Hsplit & Hpieces & Hpop).
    change (region ++ "/" ++ first) with (region ++ String "/" first).
    rewrite Hsplit, (pop_cons _ _ Hpieces), Hpop, Hplain.
    cbn [JS.pop]. rewrite (replaceFirst_absent "_" " " first Hfirst).
    unfold JS.orElse.
    now destruct (String.eqb_spec first "").
  - destruct (pop_split_after "/" "" region)
      as (piece & pieces & Hsplit & Hpieces & Hpop).
    change (region ++ "/") with (region ++ String "/" "").
    rewrite Hsplit, (pop_cons _ _ Hpieces), Hpop. reflexivity.
Qed.

(** New York is shown with a blank, Port of Spain keeps its second
    underscore, and Paris is shown as it is. *)
Lemma X20_new_york_and_port_of_spain :
  DateTimeService.getTimezoneDisplayName "America/New_York" = "New York"
  /\ DateTimeService.getTimezoneDisplayName "America/Port_of_Spain"
     = "Port of_Spain"
  /\ DateTimeService.getTimezoneDisplayName "Europe/Paris" = "Paris".
Proof.
  split; [|split].
  - exact (proj1 (X20_display_name_replaces_first_underscore "America" "New"
                    "York" eq_refl) eq_refl).
  - exact (proj1 (X20_display_name_replaces_first_underscore "America" "Port"
                    "of_Spain" eq_refl) eq_refl).
  - apply (proj1 (proj2 (X20_display_name_replaces_first_underscore "Europe"
                           "Paris" "" eq_refl))); [reflexivity | discriminate].
Defined.


(** ** The mock user table *)

Lemma find_app_cases {A : Type} (f : A -> bool) (l1 l2 : list A) :
  find f (l1 ++ l2)%list
  = match find f l1 with
    | Some x => Some x
    | None => find f l2
    end.
Proof.
  induction l1 as [|x l1 IH]; cbn; [reflexivity|].
  now destruct (f x).
Qed.

Lemma find_with_password_none (users : list MockAuthAPI.User)
  (email' password' : string) :
  find (fun u => String.eqb (MockAuthAPI.email u) email') users = None ->
  find (fun u => String.eqb (MockAuthAPI.email u) email'
                 && String.eqb (MockAuthAPI.password u) password') users
  = None.
Proof.
  induction users as [|u users IH]; cbn; [reflexivity|].
  destruct (String.eqb (MockAuthAPI.email u) email'); [discriminate|].
  exact IH.
Qed.

(** X21. After a signup that succeeded, login with the email and the
    password signed up with succeeds and returns the profile the
    signup returned; login with that email and any other password
    fails with "Invalid credentials"; and every login that succeeded
    before the signup succeeds after it with the same profile. *)
Theorem X21_signup_then_login :
  forall (users users' : list MockAuthAPI.User) (dateNow : Z)
         (email' password' displayName' : string)
         (profile : MockAuthAPI.Profile),
    MockAuthAPI.signup users dateNow email' password' displayName'
    = (Normal profile, users') ->
    MockAuthAPI.login users' email' password' = Normal profile
    /\ (forall other,
          other <> password' ->
          MockAuthAPI.login users' email' other
          = Throw (ErrorObject "Error" "Invalid credentials"))
    /\ (forall email0 password0 profile0,
          MockAuthAPI.login users email0 password0 = Normal profile0 ->
          MockAuthAPI.login users' email0 password0 = Normal profile0).
Proof.
  intros users users' dateNow email' password' displayName' profile.
  unfold MockAuthAPI.signup.
  destruct (find (fun u => String.eqb (MockAuthAPI.email u) email') users)
    eqn:Hfresh; [discriminate|].
  intros [= <- <-]. unfold MockAuthAPI.login.
  split; [|split].
  - rewrite find_app_cases, (find_with_password_none _ _ _ Hfresh).
    cbn [find MockAuthAPI.email MockAuthAPI.password].
    now rewrite !String.eqb_refl.
  - intros other Hother.
    rewrite find_app_cases, (find_with_password_none _ _ _ Hfresh).
    cbn [find MockAuthAPI.email MockAuthAPI.password].
    rewrite String.eqb_refl. cbn [andb].
    destruct (String.eqb_spec password' other) as [Heq|_];
      [now contradiction Hother | reflexivity].
  - intros email0 password0 profile0. rewrite find_app_cases.
    destruct (find (fun u => String.eqb (MockAuthAPI.email u) email0
                            && String.eqb (MockAuthAPI.password u) password0)
                   users); [trivial | intros Hlogin; discriminate Hlogin].
Qed.

(** Signing up a third user to the table of the source and logging
    in. *)
Lemma X21_third_user_logs_in :
  exists users',
    MockAuthAPI.signup MockAuthAPI.mockUsers 1766408400000 "new@example.com"
      "secret" "New User"
    = (Normal (MockAuthAPI.mkProfile "user-1766408400000" "new@example.com"
                 "New User"), users')
    /\ MockAuthAPI.login users' "new@example.com" "secret"
       = Normal (MockAuthAPI.mkProfile "user-1766408400000" "new@example.com"
                   "New User")
    /\ MockAuthAPI.login users' "test@example.com" "password123"
       = Normal (MockAuthAPI.mkProfile "user-1" "test@example.com"
                   "Test User").
Proof.
  eexists. split; [reflexivity|].
  destruct (X21_signup_then_login MockAuthAPI.mockUsers _ 1766408400000
              "new@example.com" "secret" "New User" _ eq_refl)
    as (Hlogin & _ & Hkept).
  split; [exact Hlogin|]. apply Hkept. reflexivity.
Defined.

(** X22. Signing up with an email that is in the table fails with
    "User already exists" and leaves the table as it is, whatever the
    password; and a table in which no email occurs twice stays so
    through every signup. *)
Theorem X22_signup_keeps_emails_unique :
  forall (users : list MockAuthAPI.User) (dateNow : Z)
         (email' password' displayName' : string),
    ((exists u, In u users /\ MockAuthAPI.email u = email') ->
     MockAuthAPI.signup users dateNow email' password' displayName'
     = (Throw (ErrorObject "Error" "User already exists"), users))
    /\ (NoDup (map MockAuthAPI.email users) ->
        NoDup (map MockAuthAPI.email
                 (snd (MockAuthAPI.signup users dateNow email' password'
                         displayName')))).
Proof.
  intros users dateNow email' password' displayName'.
  unfold MockAuthAPI.signup.
  destruct (find (fun u => String.eqb (MockAuthAPI.email u) email') users)
    as [found|] eqn:Hfind.
  - split; [reflexivity | trivial].
  - split.
    + intros (u & Hin & Hemail). exfalso.
      apply (find_none _ _ Hfind) in Hin. cbn in Hin.
      rewrite Hemail, String.eqb_refl in Hin. discriminate.
    + intros Hnodup. cbn [snd]. rewrite map_app. cbn [map MockAuthAPI.email].
      apply NoDup_app; [exact Hnodup | repeat constructor; intros [] |].
      intros e Hin [<-|[]]. apply in_map_iff in Hin.
      destruct Hin as (u & Hemail & Hin).
      apply (find_none _ _ Hfind) in Hin. cbn in Hin.
      rewrite Hemail, String.eqb_refl in Hin. discriminate.
Qed.

(** Signing up again with an email of the table of the source fails;
    signing up with a new one keeps the three emails distinct. *)
Lemma X22_demo_user_exists :
  MockAuthAPI.signup MockAuthAPI.mockUsers 0 "demo@example.com" "x" "Demo"
  = (Throw (ErrorObject "Error" "User already exists"), MockAuthAPI.mockUsers)
  /\ NoDup (map MockAuthAPI.email
              (snd (MockAuthAPI.signup MockAuthAPI.mockUsers 0
                      "new@example.com" "secret" "New User"))).
Proof.
  split.
  - apply (proj1 (X22_signup_keeps_emails_unique MockAuthAPI.mockUsers 0
                    "demo@example.com" "x" "Demo")).
    exists (MockAuthAPI.mkUser "user-2" "demo@example.com" "demo123"
              "Demo User").
    split; [right; left; reflexivity | reflexivity].
  - apply (proj2 (X22_signup_keeps_emails_unique MockAuthAPI.mockUsers 0
                    "new@example.com" "secret" "New User")).
    repeat constructor; cbn; intuition discriminate.
Defined.


(** ** Switching the timezone *)


